(** * Finance Variance Analysis: a model of [app.py]

    [app.py] is a single Streamlit script.  It resolves an API key, loads a
    CSV file into a data frame, shows two pivot tables (plan and actuals by
    account and month), reads a free-text context and a question, and hands
    both to a data-frame agent of an LLM library.

    The script is embedded as a computation in a small monad that records
    what the page shows and what the script asks of its libraries (a trace
    of events) and that ends normally, with [st.stop()], or with an
    uncaught exception.  Everything the script reads from outside (widget
    values, the secrets store, what [pd.read_csv] yields, what the planner
    proposes) is a field of a [session] record.

    pandas and the agent library are not part of the repository.  The
    modules [Pandas] and [Agent] model the part of their contract the
    script relies on, and say so where they do. *)

From Stdlib Require Import List String Ascii Bool Arith ZArith Lia.
Import ListNotations.
Open Scope string_scope.

(** ** Python values shared by the script and its libraries *)

(** The exceptions the script can meet.  [str(e)] of a [KeyError] is the
    [repr] of the missing key, hence the quotes in [exn_str]. *)
Inductive exn : Type :=
| KeyError (key : string)
| FileNotFoundError (msg : string)
| ValueError (msg : string)
| OtherException (cls msg : string).

Definition exn_str (e : exn) : string :=
  match e with
  | KeyError k => "'" ++ k ++ "'"
  | FileNotFoundError m => m
  | ValueError m => m
  | OtherException _ m => m
  end.

(** A call that returns or raises. *)
Inductive pyresult (A : Type) : Type :=
| Ok (a : A)
| Exc (e : exn).
Arguments Ok {A} a.
Arguments Exc {A} e.

Definition pybind {A B} (r : pyresult A) (f : A -> pyresult B) : pyresult B :=
  match r with
  | Ok a => f a
  | Exc e => Exc e
  end.

(** Truth value of a Python string: every string but the empty one. *)
Definition truthy (s : string) : bool :=
  match s with
  | EmptyString => false
  | String _ _ => true
  end.

(** ** pandas: frames, column access and [DataFrame.pivot] *)

Module Pandas.

(** A cell of a frame read from CSV text: a string, a number, or the
    missing value.  The script never computes on numbers, so an integer
    stands for any numeric literal. *)
Inductive cell : Type :=
| CStr (s : string)
| CNum (n : Z)
| CNaN.

Definition cell_eqb (a b : cell) : bool :=
  match a, b with
  | CStr s, CStr t => String.eqb s t
  | CNum n, CNum m => Z.eqb n m
  | CNaN, CNaN => true
  | _, _ => false
  end.

(** Order of labels: numbers, then strings, then the missing value; each
    kind in its own order. *)
Definition cell_leb (a b : cell) : bool :=
  match a, b with
  | CNum n, CNum m => Z.leb n m
  | CNum _, _ => true
  | CStr _, CNum _ => false
  | CStr s, CStr t => String.leb s t
  | CStr _, CNaN => true
  | CNaN, CNaN => true
  | CNaN, _ => false
  end.

(** A frame as [pd.read_csv] returns it: named columns over rows, with
    the default integer index. *)
Record DataFrame : Type := mkFrame {
  columns : list string;
  rows : list (list cell)
}.

(** The result of [pivot]: a frame indexed by row labels, with column
    labels; [body] has one list per row label, one cell per column label. *)
Record Table : Type := mkTable {
  index : list cell;
  tcolumns : list cell;
  body : list (list cell)
}.

Fixpoint position (name : string) (names : list string) : option nat :=
  match names with
  | [] => None
  | n :: rest =>
      if String.eqb name n then Some 0
      else option_map S (position name rest)
  end.

(** [df[name]]: the cells of one column, or [KeyError]. *)
Definition getitem (df : DataFrame) (name : string) : pyresult (list cell) :=
  match position name (columns df) with
  | Some i => Ok (map (fun r => nth i r CNaN) (rows df))
  | None => Exc (KeyError name)
  end.

Definition mem (c : cell) (l : list cell) : bool := existsb (cell_eqb c) l.

(** [Series.unique()]: distinct values in order of first appearance. *)
Fixpoint unique (l : list cell) : list cell :=
  match l with
  | [] => []
  | c :: rest => c :: filter (fun d => negb (cell_eqb c d)) (unique rest)
  end.

Fixpoint insert_sorted (c : cell) (l : list cell) : list cell :=
  match l with
  | [] => [c]
  | d :: rest => if cell_leb c d then c :: l else d :: insert_sorted c rest
  end.

Definition sort_labels (l : list cell) : list cell :=
  fold_right insert_sorted [] l.

Definition key_eqb (k1 k2 : cell * cell) : bool :=
  cell_eqb (fst k1) (fst k2) && cell_eqb (snd k1) (snd k2).

(** Does some (row label, column label) pair occur twice? *)
Fixpoint has_duplicates (keys : list (cell * cell)) : bool :=
  match keys with
  | [] => false
  | k :: rest => existsb (key_eqb k) rest || has_duplicates rest
  end.

Fixpoint lookup_key (k : cell * cell) (entries : list ((cell * cell) * cell))
  : cell :=
  match entries with
  | [] => CNaN
  | (k', v) :: rest => if key_eqb k k' then v else lookup_key k rest
  end.

Definition duplicate_entries : exn :=
  ValueError "Index contains duplicate entries, cannot reshape".

(** Modelled from the spec: [df.pivot(index=i, columns=c, values=v)] is
    pandas code and not among the sources.  Each cell of the result is the
    value of the one row with that (row label, column label) pair, and a
    pair that occurs on more than one row is an error, never overwritten.
    As in pandas, the three columns are fetched in this order, each raising
    [KeyError] when absent; the error for a repeated pair is a [ValueError];
    both axes carry the sorted distinct labels; a pair without a row holds
    the missing value. *)
Definition pivot (df : DataFrame) (i c v : string) : pyresult Table :=
  pybind (getitem df i) (fun idx =>
  pybind (getitem df c) (fun cols =>
  pybind (getitem df v) (fun vals =>
    let keys := combine idx cols in
    if has_duplicates keys then Exc duplicate_entries
    else
      let rlabels := sort_labels (unique idx) in
      let clabels := sort_labels (unique cols) in
      let entries := combine keys vals in
      Ok (mkTable rlabels clabels
            (map (fun r => map (fun k => lookup_key (r, k) entries) clabels)
                 rlabels))))).

Fixpoint cell_position (c : cell) (l : list cell) : option nat :=
  match l with
  | [] => None
  | d :: rest =>
      if cell_eqb c d then Some 0 else option_map S (cell_position c rest)
  end.

Fixpoint positions (labels : list cell) (have : list cell)
  : pyresult (list nat) :=
  match labels with
  | [] => Ok []
  | l :: rest =>
      match cell_position l have with
      | None => Exc (KeyError "not in index")
      | Some p => pybind (positions rest have) (fun ps => Ok (p :: ps))
      end
  end.

(** [t[labels]] with a list of labels: the named columns, in the order of
    the list; [KeyError] if one of them is not a column of [t]. *)
Definition select (t : Table) (labels : list cell) : pyresult Table :=
  pybind (positions labels (tcolumns t)) (fun ps =>
    Ok (mkTable (index t) labels
          (map (fun r => map (fun p => nth p r CNaN) ps) (body t)))).

(** [df.head(n)]. *)
Definition head (n : nat) (df : DataFrame) : DataFrame :=
  mkFrame (columns df) (firstn n (rows df)).

(** [len(df)]. *)
Definition len (df : DataFrame) : nat := List.length (rows df).

End Pandas.

(** ** The agent library: configuration, tool and one invocation

    The code of the library is not in the repository; [app.py] only calls
    it.  This module fixes the arguments the script passes and gives a way
    to write down what one invocation did: the queries that were run, with
    what each of them did, and how the call ended.  All of that is an input
    of a session.  Neither the loop in which planner and tool take turns,
    nor what the tool lets a query do, nor how the key and the model shape
    the planner's behaviour is modelled; no property here speaks of them. *)

Module Agent.

Inductive agent_type : Type :=
| ZERO_SHOT_REACT_DESCRIPTION
| OPENAI_FUNCTIONS.

(** [ChatGoogleGenerativeAI(model=..., google_api_key=..., temperature=...)]. *)
Record llm : Type := mkLlm {
  model : string;
  google_api_key : string;
  temperature : Z
}.

(** The keyword arguments [app.py] gives to
    [create_pandas_dataframe_agent]. *)
Record kwargs : Type := mkKwargs {
  kw_agent_type : agent_type;
  verbose : bool;
  allow_dangerous_code : bool
}.

Record agent : Type := mkAgent {
  agent_llm : llm;
  agent_df : Pandas.DataFrame;
  agent_kwargs : kwargs
}.

(** What a piece of Python does when the interpreter runs it, as far as
    an observer of the host can tell. *)
Inductive py_effect : Type :=
| FrameRead (expr : string)
| FrameUpdate (expr : string)
| FileRead (path : string)
| FileWrite (path data : string)
| NetSend (url payload : string)
| ProcSpawn (cmd : string).

(** A query that was run during an invocation: its text, what it did, and
    the observation it gave. *)
Record py_code : Type := mkCode {
  code_text : string;
  code_effects : list py_effect;
  code_result : string
}.

(** [agent.invoke] returns a dict with the key [output]; the script also
    provides for any other value. *)
Inductive response : Type :=
| RDict (items : list (string * string))
| ROther (text : string).

(** One invocation as the language model drives it: the queries it
    proposes, in order, and how the call ends (a response, or an
    exception such as a provider failure).  Only invocations that return
    are described; the loop that produces them is the library's. *)
Record agent_run : Type := mkRun {
  proposals : list py_code;
  ending : pyresult response
}.

Definition planner : Type := Pandas.DataFrame -> string -> agent_run.

Inductive tool_event : Type :=
| ToolCall (code : string)
| ToolEffect (e : py_effect).

(** The library builds the agent only when the caller opts in to its
    Python tool with [allow_dangerous_code]; otherwise it raises
    [ValueError] (message abbreviated). *)
Definition create_pandas_dataframe_agent
    (l : llm) (df : Pandas.DataFrame) (kw : kwargs) : pyresult agent :=
  if allow_dangerous_code kw then Ok (mkAgent l df kw)
  else Exc (ValueError "You must opt-in to use this functionality by setting allow_dangerous_code=True.").

(** The record of one call of the agent's tool: the code that was run,
    then what it did, both as the session gives them. *)
Definition python_repl_ast (c : py_code) : list tool_event :=
  ToolCall (code_text c) :: map ToolEffect (code_effects c).

(** [agent.invoke(prompt)]: the tool calls of the run, in order, then the
    call ends as the run says. *)
Definition invoke (p : planner) (a : agent) (prompt : string)
  : list tool_event * pyresult response :=
  let run := p (agent_df a) prompt in
  (flat_map python_repl_ast (proposals run), ending run).

End Agent.

(** ** Streamlit: what a run of the script shows and does *)

Inductive event : Type :=
| PageConfig (page_title layout : string)
| Title (text : string)
| Sidebar
| Header (text : string)
| Subheader (text : string)
| Success (text : string)
| Info (text : string)
| Warning (text : string)
| Error (text : string)
| TextInput (label : string)
| TextArea (label value : string)
| FileUploader (label : string)
| Expander (label : string)
| Write (text : string)
| WriteObject (r : Agent.response)
| ShowTable (t : Pandas.Table)
| ShowFrame (df : Pandas.DataFrame)
| Columns (n : nat)
| Metric (label : string) (value : nat)
| Spinner (text : string)
| LLMCreated (l : Agent.llm)
| AgentCreated (a : Agent.agent)
| AgentInvoked (prompt : string)
| Tool (e : Agent.tool_event).

(** How a stretch of the script ends: it falls through with a value, calls
    [st.stop()], or lets an exception escape. *)
Inductive flow (A : Type) : Type :=
| Done (a : A)
| Stopped
| Raised (e : exn).
Arguments Done {A} a.
Arguments Stopped {A}.
Arguments Raised {A} e.

Definition script (A : Type) : Type := (list event * flow A)%type.

Definition ret {A} (a : A) : script A := ([], Done a).

Definition bind {A B} (m : script A) (f : A -> script B) : script B :=
  match m with
  | (t, Done a) => let (t', r) := f a in ((t ++ t')%list, r)
  | (t, Stopped) => (t, Stopped)
  | (t, Raised e) => (t, Raised e)
  end.

Declare Scope script_scope.
Delimit Scope script_scope with script.
Notation "x <- m ;; k" := (bind m (fun x => k))
  (at level 61, m at next level, right associativity) : script_scope.
Notation "m ;; k" := (bind m (fun _ => k))
  (at level 61, right associativity) : script_scope.
Notation "' pat <- m ;; k" := (bind m (fun x => match x with pat => k end))
  (at level 61, pat pattern, m at next level, right associativity)
  : script_scope.
Open Scope script_scope.

Definition emit (e : event) : script unit := ([e], Done tt).

Definition stop {A} : script A := ([], Stopped).

Definition lift {A} (r : pyresult A) : script A :=
  match r with
  | Ok a => ret a
  | Exc e => ([], Raised e)
  end.

(** [try: m  except <classes>: handler]; [st.stop()] is not an
    [Exception] and passes through. *)
Definition try_except {A} (m : script A) (catches : exn -> bool)
    (handler : exn -> script A) : script A :=
  match m with
  | (t, Raised e) =>
      if catches e then let (t', r) := handler e in ((t ++ t')%list, r)
      else (t, Raised e)
  | other => other
  end.

Definition any_exception (e : exn) : bool := true.

Definition trace {A} (m : script A) : list event := fst m.
Definition outcome {A} (m : script A) : flow A := snd m.

(** What one run of the script reads from outside. *)
Record session : Type := mkSession {
  secrets_key : pyresult string;        (* st.secrets["GEMINI_API_KEY"] *)
  typed_key : string;                   (* the sidebar's password box *)
  upload : option (pyresult Pandas.DataFrame);
                                        (* pd.read_csv on the uploaded file *)
  sample : pyresult Pandas.DataFrame;   (* pd.read_csv("sample_data.csv") *)
  typed_context : option string;        (* the context box, if edited *)
  typed_question : string;              (* the question box *)
  plan_of : Agent.planner               (* the language model's behaviour *)
}.

(** ** [app.py], section by section *)

Definition page_head : script unit :=
  emit (PageConfig "Finance Variance Analysis" "wide") ;;
  emit (Title "Finance Variance Analysis").

Definition secrets_missing (e : exn) : bool :=
  match e with
  | KeyError _ | FileNotFoundError _ => true
  | _ => false
  end.

(** [# Sidebar for API Key]: the key from the secrets store, else from the
    password box. *)
Definition sidebar (s : session) : script string :=
  emit Sidebar ;;
  emit (Header "Configuration") ;;
  try_except
    (api_key <- lift (secrets_key s) ;;
     emit (Success "✅ API Key loaded from secrets") ;;
     ret api_key)
    secrets_missing
    (fun _ =>
       emit (TextInput "Enter Google Gemini API Key") ;;
       let api_key := typed_key s in
       (if negb (truthy api_key)
        then emit (Warning "Please enter your Google Gemini API Key to proceed.")
        else ret tt) ;;
       ret api_key).

Definition file_not_found (e : exn) : bool :=
  match e with
  | FileNotFoundError _ => true
  | _ => false
  end.

(** [# Data Source]: the uploaded file if there is one, else the sample
    file; without either the script stops. *)
Definition load (s : session) : script Pandas.DataFrame :=
  emit (FileUploader "Upload your CSV file") ;;
  match upload s with
  | Some uploaded_file =>
      df <- lift uploaded_file ;;
      emit (Success "File uploaded successfully!") ;;
      ret df
  | None =>
      try_except
        (df <- lift (sample s) ;;
         emit (Info "Using sample data. Upload a CSV to use your own data.") ;;
         ret df)
        file_not_found
        (fun _ =>
           emit (Error "sample_data.csv not found. Please upload a file.") ;;
           stop)
  end.

Definition month_order : list string :=
  ["Jan"; "Feb"; "Mar"; "Apr"; "May"; "Jun";
   "Jul"; "Aug"; "Sep"; "Oct"; "Nov"; "Dec"].

(** [[m for m in month_order if m in plan_pivot.columns]]. *)
Definition available_months (plan_pivot : Pandas.Table) : list string :=
  filter (fun m => Pandas.mem (Pandas.CStr m) (Pandas.tcolumns plan_pivot))
         month_order.

(** The body of the [try] in [# Display Data Preview]. *)
Definition preview_body (df : Pandas.DataFrame) : script unit :=
  plan_pivot <- lift (Pandas.pivot df "Account" "Month" "Plan") ;;
  actual_pivot <- lift (Pandas.pivot df "Account" "Month" "Actuals") ;;
  let months := available_months plan_pivot in
  plan_pivot <- lift (Pandas.select plan_pivot (map Pandas.CStr months)) ;;
  actual_pivot <- lift (Pandas.select actual_pivot (map Pandas.CStr months)) ;;
  emit (Write "### Plan") ;;
  emit (ShowTable plan_pivot) ;;
  emit (Write "### Actual") ;;
  emit (ShowTable actual_pivot) ;;
  emit (Write "---") ;;
  emit (Columns 3) ;;
  emit (Metric "Total Rows" (Pandas.len df)) ;;
  accounts <- lift (Pandas.getitem df "Account") ;;
  emit (Metric "Account Types" (List.length (Pandas.unique accounts))) ;;
  emit (Metric "Months" (List.length months)).

Definition pivot_failed (df : Pandas.DataFrame) (e : exn) : script unit :=
  emit (Error ("Error creating pivot table: " ++ exn_str e)) ;;
  emit (Write "**Raw Data Preview (first 20 rows):**") ;;
  emit (ShowFrame (Pandas.head 20 df)).

Definition data_preview (df : Pandas.DataFrame) : script unit :=
  emit (Expander "Data Preview") ;;
  emit (Subheader "Complete Dataset Overview") ;;
  try_except (preview_body df) any_exception (pivot_failed df).

Definition sample_context : string :=
  "REVENUE VARIANCES:
Q1: Jan favorable (+$2k) due to unexpected contract renewal. Feb unfavorable (-$2k) from delayed customer payment. Mar favorable (+$5k) from new client onboarding ahead of schedule.
Q2: Apr favorable (+$2k) from seasonal uptick. May unfavorable (-$2k) due to service disruption. Jun favorable (+$5k) from promotional campaign success.
Q3: Jul unfavorable (-$2k) from summer slowdown. Aug favorable (+$2k) from new product launch. Sep favorable (+$1k) from stable operations.
Q4: Oct unfavorable (-$2k) from competitive pricing pressure. Nov favorable (+$5k) from holiday season boost. Dec favorable (+$2k) from year-end contracts.

COGS VARIANCES:
Q1-Q2: Minor variances ($1-2k) due to normal supplier price fluctuations and volume discounts.
Q3-Q4: Steady at plan or slightly favorable, reflecting improved procurement efficiency.

LABOR VARIANCES:
Generally at plan. Mar, May, Sep, and Nov show +$500-1k variances due to overtime for project deadlines and temporary staffing needs during peak periods.

FIXED COSTS VARIANCES:
Minor monthly fluctuations (+/-$200-500) from utilities rate changes, property tax adjustments, and insurance premium updates. Overall trending slightly above plan due to cost inflation.

VARIABLE COSTS VARIANCES:
Track closely with revenue patterns. Favorable when revenue is down (Feb, May, Jul, Oct) and unfavorable when revenue exceeds plan, reflecting commission structures and shipping costs.

G&A VARIANCES:
Q1-Q2: Minor variances (+/-$200-300) from office supplies, travel costs, and professional services timing.
Q3-Q4: Slightly higher activity from year-end audit preparations and strategic planning initiatives.

DEPRECIATION:
Consistently at plan. No variance as depreciation follows straight-line schedule.

INTEREST EXPENSE:
May-Dec show favorable variances ($100-300) due to early principal payments reducing outstanding debt balance and lowering interest charges.

OPERATING TAXES:
Minor variances (+/-$20-70) from quarterly true-ups based on actual revenue performance and regulatory adjustments.

INCOME TAXES:
Variances (+/-$100-250) align with revenue and profitability fluctuations. Higher revenue months show higher tax variance.".

(** [# Context Area]: the narrative, preset only for the sample data. *)
Definition default_context (s : session) : string :=
  match upload s with
  | None => sample_context
  | Some _ => ""
  end.

(** What [st.text_area(..., value=default_context)] returns: the text as
    edited, or the preset value. *)
Definition entered_context (s : session) : string :=
  match typed_context s with
  | Some edited => edited
  | None => default_context s
  end.

Definition context_area (s : session) : script string :=
  emit (TextArea "Variance Context" (default_context s)) ;;
  ret (entered_context s).

Definition question_box (s : session) : script string :=
  emit (Header "Ask Questions") ;;
  emit (TextInput "Ask a question about your data:") ;;
  ret (typed_question s).

Definition agent_kwargs : Agent.kwargs :=
  Agent.mkKwargs Agent.ZERO_SHOT_REACT_DESCRIPTION true true.

(** The f-string of [# Combine context and question]. *)
Definition final_prompt (context question : string) : string :=
  "Context provided by user: " ++ context ++ "

Question: " ++ question ++ "

Please provide a clear and concise answer based on the data and context provided.".

Fixpoint dict_get (key : string) (items : list (string * string))
  : option string :=
  match items with
  | [] => None
  | (k, v) :: rest => if String.eqb key k then Some v else dict_get key rest
  end.

(** [if isinstance(response, dict) and 'output' in response: ... else: ...]. *)
Definition show_response (r : Agent.response) : script unit :=
  match r with
  | Agent.RDict items =>
      match dict_get "output" items with
      | Some output => emit (Write output)
      | None => emit (WriteObject r)
      end
  | Agent.ROther _ => emit (WriteObject r)
  end.

Definition run_agent (p : Agent.planner) (a : Agent.agent) (prompt : string)
  : script Agent.response :=
  emit (AgentInvoked prompt) ;;
  let (tool_events, result) := Agent.invoke p a prompt in
  (map Tool tool_events, Done tt) ;;
  lift result.

(** The body of the [try] in [# Chat Interface]. *)
Definition ask (s : session) (api_key : string) (df : Pandas.DataFrame)
    (context question : string) : script unit :=
  let llm := Agent.mkLlm "gemini-pro" api_key 0 in
  emit (LLMCreated llm) ;;
  agent <- lift (Agent.create_pandas_dataframe_agent llm df agent_kwargs) ;;
  emit (AgentCreated agent) ;;
  let prompt := final_prompt context question in
  emit (Spinner "Analyzing...") ;;
  response <- run_agent (plan_of s) agent prompt ;;
  show_response response.

Definition chat (s : session) (api_key : string) (df : Pandas.DataFrame)
    (context question : string) : script unit :=
  if truthy question && truthy api_key then
    try_except (ask s api_key df context question) any_exception
      (fun e => emit (Error ("An error occurred: " ++ exn_str e)))
  else if truthy question && negb (truthy api_key) then
    emit (Error "Please enter your API Key in the sidebar.")
  else ret tt.

(** The page up to and including the question box: everything the script
    does before it looks at the question. *)
Definition render (s : session)
  : script (string * Pandas.DataFrame * string * string) :=
  page_head ;;
  api_key <- sidebar s ;;
  df <- load s ;;
  data_preview df ;;
  context <- context_area s ;;
  question <- question_box s ;;
  ret (api_key, df, context, question).

(** One run of [app.py]. *)
Definition app (s : session) : script unit :=
  '(api_key, df, context, question) <- render s ;;
  chat s api_key df context question.

(** ** Vocabulary of the properties *)

(** The events by which the reasoning agent is built or run. *)
Definition agent_event (e : event) : bool :=
  match e with
  | LLMCreated _ | AgentCreated _ | AgentInvoked _ | Tool _ => true
  | _ => false
  end.

Definition agent_free {A} (m : script A) : Prop :=
  Forall (fun e => agent_event e = false) (trace m).

(** Did the sidebar end up with a usable key? *)
Definition has_credential (s : session) : bool :=
  match outcome (sidebar s) with
  | Done api_key => truthy api_key
  | _ => false
  end.

Definition required_columns : list string :=
  ["Account"; "Month"; "Plan"; "Actuals"].

Definition has_column (df : Pandas.DataFrame) (name : string) : bool :=
  match Pandas.position name (Pandas.columns df) with
  | Some _ => true
  | None => false
  end.

Definition has_required_columns (df : Pandas.DataFrame) : bool :=
  forallb (has_column df) required_columns.

(** The (account, period) pair of every row, in row order; empty when the
    frame has no such columns. *)
Definition account_period (df : Pandas.DataFrame)
  : list (Pandas.cell * Pandas.cell) :=
  match Pandas.getitem df "Account", Pandas.getitem df "Month" with
  | Ok accounts, Ok months => combine accounts months
  | _, _ => []
  end.

(** The periods that occur in the data. *)
Definition periods_present (df : Pandas.DataFrame) : list Pandas.cell :=
  match Pandas.getitem df "Month" with
  | Ok months => months
  | Exc _ => []
  end.

(** The canonical calendar order restricted to the periods of [df]. *)
Definition calendar_columns (df : Pandas.DataFrame) : list Pandas.cell :=
  map Pandas.CStr
    (filter (fun m => Pandas.mem (Pandas.CStr m) (periods_present df))
            month_order).

(** ** Sample data and sessions *)

Module Samples.
Import Pandas.

Definition ledger : DataFrame :=
  mkFrame ["Account"; "Month"; "Plan"; "Actuals"]
    [[CStr "Revenue"; CStr "Feb"; CNum 100; CNum 95];
     [CStr "Revenue"; CStr "Jan"; CNum 100; CNum 102];
     [CStr "COGS"; CStr "Jan"; CNum 40; CNum 41]].

(** Two rows for (Revenue, Jan). *)
Definition ledger_twice : DataFrame :=
  mkFrame ["Account"; "Month"; "Plan"; "Actuals"]
    [[CStr "Revenue"; CStr "Jan"; CNum 100; CNum 102];
     [CStr "Revenue"; CStr "Feb"; CNum 100; CNum 95];
     [CStr "Revenue"; CStr "Jan"; CNum 100; CNum 104]].

(** A rectangular table without the actuals. *)
Definition plan_only : DataFrame :=
  mkFrame ["Account"; "Month"; "Plan"]
    [[CStr "Revenue"; CStr "Jan"; CNum 100];
     [CStr "Revenue"; CStr "Feb"; CNum 100]].

(** The two pivots of [ledger], as [pivot] returns them. *)
Definition ledger_plan : Table :=
  mkTable [CStr "COGS"; CStr "Revenue"] [CStr "Feb"; CStr "Jan"]
    [[CNaN; CNum 40]; [CNum 100; CNum 100]].

Definition ledger_actual : Table :=
  mkTable [CStr "COGS"; CStr "Revenue"] [CStr "Feb"; CStr "Jan"]
    [[CNaN; CNum 41]; [CNum 95; CNum 102]].

Definition jan_question : string := "What was the Jan variance for Revenue?".

(** A planner that runs one query over the frame and answers. *)
Definition careful : Agent.planner :=
  fun _ prompt =>
    Agent.mkRun
      [Agent.mkCode "df[df['Month'] == 'Jan']"
         [Agent.FrameRead "df[df['Month'] == 'Jan']"] "102 100"]
      (Ok (Agent.RDict [("input", prompt);
                        ("output", "Favorable variance of 2.")])).

Definition no_secret : pyresult string := Exc (KeyError "GEMINI_API_KEY").
Definition no_sample : pyresult DataFrame :=
  Exc (FileNotFoundError
         "[Errno 2] No such file or directory: 'sample_data.csv'").

(** Sample data, no key anywhere, a question typed. *)
Definition keyless : session :=
  mkSession no_secret "" None (Ok ledger) None jan_question careful.

(** Sample data, a key typed, a question typed. *)
Definition asking : session :=
  mkSession no_secret "key" None (Ok ledger) None jan_question careful.

(** A key from the secrets store, the page just opened. *)
Definition idle : session :=
  mkSession (Ok "key") "" None (Ok ledger) None "" careful.

(** Nothing uploaded and no sample file. *)
Definition empty_handed : session :=
  mkSession no_secret "key" None no_sample None jan_question careful.

(** An upload with a repeated pair, then a question. *)
Definition doubled : session :=
  mkSession no_secret "key" (Some (Ok ledger_twice)) (Ok ledger)
    (Some "Jan was booked twice.") jan_question careful.

(** The instruction the agent receives in [doubled], character by
    character. *)
Definition doubled_instruction : string :=
  "Context provided by user: Jan was booked twice.

Question: What was the Jan variance for Revenue?

Please provide a clear and concise answer based on the data and context provided.".

(** An upload without the actuals column. *)
Definition partial : session :=
  mkSession no_secret "key" (Some (Ok plan_only)) (Ok ledger) None ""
    careful.

End Samples.

(** ** Further vocabulary: sessions that differ in one input, and views
    of a trace *)

(** The same session with another text in the sidebar's password box. *)
Definition with_typed_key (k : string) (s : session) : session :=
  mkSession (secrets_key s) k (upload s) (sample s) (typed_context s)
    (typed_question s) (plan_of s).

(** The same session with another outcome of reading [sample_data.csv]. *)
Definition with_sample (r : pyresult Pandas.DataFrame) (s : session)
  : session :=
  mkSession (secrets_key s) (typed_key s) (upload s) r (typed_context s)
    (typed_question s) (plan_of s).

(** Building the language model, building the agent, invoking it. *)
Definition is_setup (e : event) : bool :=
  match e with
  | LLMCreated _ | AgentCreated _ | AgentInvoked _ => true
  | _ => false
  end.

(** The tables a trace shows, in order. *)
Definition tables_shown (t : list event) : list Pandas.Table :=
  flat_map (fun e => match e with ShowTable tb => [tb] | _ => [] end) t.

(** [shown] is [pivoted] with its columns put in another order: the same
    row labels and as many rows; every row of [shown] has one cell per
    column label of [shown]; and the cell under a label is the cell that the
    same row of [pivoted] has under that label. *)
Definition columns_moved (pivoted shown : Pandas.Table) : Prop :=
  Pandas.index shown = Pandas.index pivoted /\
  List.length (Pandas.body shown) = List.length (Pandas.body pivoted) /\
  forall r shown_row,
    nth_error (Pandas.body shown) r = Some shown_row ->
    List.length shown_row = List.length (Pandas.tcolumns shown) /\
    exists row,
      nth_error (Pandas.body pivoted) r = Some row /\
      forall c label,
        nth_error (Pandas.tcolumns shown) c = Some label ->
        exists p value,
          Pandas.cell_position label (Pandas.tcolumns pivoted) = Some p /\
          nth_error row p = Some value /\
          nth_error shown_row c = Some value.

(** Does [word] occur in [text]? *)
Definition mentions (word text : string) : bool :=
  match String.index 0 word text with
  | Some _ => true
  | None => false
  end.

(** The event that closes a question put to the agent. *)
Definition closing_event (r : pyresult Agent.response) : event :=
  match r with
  | Ok (Agent.RDict items) =>
      match dict_get "output" items with
      | Some output => Write output
      | None => WriteObject (Agent.RDict items)
      end
  | Ok (Agent.ROther text) => WriteObject (Agent.ROther text)
  | Exc e => Error ("An error occurred: " ++ exn_str e)
  end.

Module Cases.
Import Pandas.

(** The secrets store holds the key, but it is the empty string. *)
Definition blank_secret : session :=
  mkSession (Ok "") "typed" None (Ok Samples.ledger) None
    Samples.jan_question Samples.careful.

(** A key in the store and another one typed. *)
Definition two_keys : session :=
  mkSession (Ok "stored") "typed" None (Ok Samples.ledger) None
    Samples.jan_question Samples.careful.

Definition parser_error : exn :=
  OtherException "ParserError" "Error tokenizing data. C error: Expected 4 fields in line 3, saw 5".

(** An upload that [pd.read_csv] cannot parse; the sample file exists. *)
Definition broken_upload : session :=
  mkSession Samples.no_secret "key" (Some (Exc parser_error))
    (Ok Samples.ledger) None Samples.jan_question Samples.careful.

(** An upload, while the sample file is missing. *)
Definition upload_only : session :=
  mkSession Samples.no_secret "key" (Some (Ok Samples.ledger))
    Samples.no_sample None Samples.jan_question Samples.careful.

Definition quota_error : exn :=
  OtherException "ResourceExhausted" "429 Quota exceeded".

(** A planner that runs one query and then loses its provider. *)
Definition cut_off : Agent.planner :=
  fun _ _ =>
    Agent.mkRun
      [Agent.mkCode "df.head()" [Agent.FrameRead "df.head()"] "Account ..."]
      (Exc quota_error).

Definition failing : session :=
  mkSession Samples.no_secret "key" None (Ok Samples.ledger) None
    Samples.jan_question cut_off.

(** A header line and no data row. *)
Definition header_only : DataFrame :=
  mkFrame ["Account"; "Month"; "Plan"; "Actuals"] [].

(** Twenty-two rows without the month column. *)
Definition long_list : DataFrame :=
  mkFrame ["Account"; "Plan"; "Actuals"]
    (map (fun n => [CStr "Revenue"; CNum (Z.of_nat n); CNum (Z.of_nat n)])
         (seq 1 22)).

End Cases.

(** ** Facts about the script monad *)

Lemma bind_done {A B} (m : script A) (f : A -> script B) (a : A) :
  outcome m = Done a ->
  bind m f = ((trace m ++ trace (f a))%list, outcome (f a)).
Proof.
  destruct m as [t [a' | | e]]; simpl; intros H; try discriminate.
  injection H as ->. now destruct (f a).
Qed.

Lemma bind_stopped {A B} (m : script A) (f : A -> script B) :
  outcome m = Stopped -> bind m f = (trace m, Stopped).
Proof.
  destruct m as [t [a' | | e]]; simpl; intros H; now try discriminate.
Qed.

Lemma bind_raised {A B} (m : script A) (f : A -> script B) (e : exn) :
  outcome m = Raised e -> bind m f = (trace m, Raised e).
Proof.
  destruct m as [t [a' | | e']]; simpl; intros H; try discriminate.
  now injection H as ->.
Qed.

Lemma bind_done_inv {A B} (m : script A) (f : A -> script B) (b : B) :
  outcome (bind m f) = Done b ->
  exists a, outcome m = Done a /\ outcome (f a) = Done b.
Proof.
  destruct m as [t [a | | e]]; simpl; try discriminate.
  intros H. exists a. split; [reflexivity|]. now destruct (f a).
Qed.

Lemma script_eta {A} (m : script A) : m = (trace m, outcome m).
Proof. now destruct m. Qed.

Lemma agent_free_ret {A} (a : A) : agent_free (ret a).
Proof. constructor. Qed.

Lemma agent_free_stop {A} : agent_free (@stop A).
Proof. constructor. Qed.

Lemma agent_free_lift {A} (r : pyresult A) : agent_free (lift r).
Proof. destruct r; constructor. Qed.

Lemma agent_free_emit (e : event) :
  agent_event e = false -> agent_free (emit e).
Proof. intros H. constructor; [exact H | constructor]. Qed.

Lemma agent_free_bind {A B} (m : script A) (f : A -> script B) :
  agent_free m -> (forall a, agent_free (f a)) -> agent_free (bind m f).
Proof.
  unfold agent_free. intros Hm Hf.
  destruct m as [t [a | | e]]; simpl in *; try assumption.
  specialize (Hf a). destruct (f a) as [t' r]; simpl in *.
  apply Forall_app; now split.
Qed.

Lemma agent_free_try {A} (m : script A) (c : exn -> bool)
    (h : exn -> script A) :
  agent_free m -> (forall e, agent_free (h e)) ->
  agent_free (try_except m c h).
Proof.
  unfold agent_free. intros Hm Hh.
  destruct m as [t [a | | e]]; simpl in *; try assumption.
  destruct (c e); simpl; [|assumption].
  specialize (Hh e). destruct (h e) as [t' r]; simpl in *.
  apply Forall_app; now split.
Qed.

Ltac quiet :=
  repeat first
    [ apply agent_free_ret | apply agent_free_stop | apply agent_free_lift
    | apply agent_free_emit; reflexivity
    | apply agent_free_bind; [|intros]
    | apply agent_free_try; [|intros]
    | match goal with |- agent_free (if ?b then _ else _) => destruct b end
    | match goal with |- agent_free (match ?x with _ => _ end) => destruct x end ].

Lemma sidebar_agent_free (s : session) : agent_free (sidebar s).
Proof. unfold sidebar. quiet. Qed.

Lemma load_agent_free (s : session) : agent_free (load s).
Proof. unfold load. quiet. Qed.

Lemma data_preview_agent_free (df : Pandas.DataFrame) :
  agent_free (data_preview df).
Proof. unfold data_preview, preview_body, pivot_failed. quiet. Qed.

Lemma render_agent_free (s : session) : agent_free (render s).
Proof.
  unfold render, page_head, context_area, question_box. quiet.
Qed.

(** ** Facts about frames and [pivot] *)

Section PandasFacts.
Import Pandas.

Lemma cell_eqb_eq (a b : cell) : cell_eqb a b = true <-> a = b.
Proof.
  destruct a, b; simpl; split; intros H;
    try discriminate; try reflexivity.
  - apply String.eqb_eq in H. now subst.
  - injection H as ->. apply String.eqb_refl.
  - apply Z.eqb_eq in H. now subst.
  - injection H as ->. apply Z.eqb_refl.
Qed.

Lemma key_eqb_eq (k1 k2 : cell * cell) : key_eqb k1 k2 = true <-> k1 = k2.
Proof.
  destruct k1 as [a1 b1], k2 as [a2 b2]. unfold key_eqb; simpl.
  rewrite andb_true_iff, !cell_eqb_eq. split.
  - now intros [-> ->].
  - intros H. now injection H.
Qed.

Lemma mem_In (c : cell) (l : list cell) : mem c l = true <-> In c l.
Proof.
  unfold mem. rewrite existsb_exists. split.
  - intros [d [Hd Heq]]. apply cell_eqb_eq in Heq. now subst.
  - intros H. exists c. split; [exact H | now apply cell_eqb_eq].
Qed.

Lemma In_unique (c : cell) (l : list cell) : In c (unique l) <-> In c l.
Proof.
  induction l as [|d l IH]; simpl; [tauto|].
  rewrite filter_In, IH, negb_true_iff. split.
  - intros [H | [H _]]; auto.
  - intros [H | H]; auto.
    destruct (cell_eqb d c) eqn:E; auto.
    apply cell_eqb_eq in E. auto.
Qed.

Lemma In_insert_sorted (c d : cell) (l : list cell) :
  In c (insert_sorted d l) <-> c = d \/ In c l.
Proof.
  induction l as [|x l IH]; simpl.
  - split; intros [H | H]; auto.
  - destruct (cell_leb d x); simpl.
    + split; intros [H | H]; auto.
    + rewrite IH. split; intros H; intuition auto.
Qed.

Lemma In_sort_labels (c : cell) (l : list cell) :
  In c (sort_labels l) <-> In c l.
Proof.
  induction l as [|x l IH]; simpl; [tauto|].
  rewrite In_insert_sorted, IH. split; intros [H | H]; auto.
Qed.

Lemma mem_labels (c : cell) (l : list cell) :
  mem c (sort_labels (unique l)) = mem c l.
Proof.
  apply eq_true_iff_eq.
  now rewrite !mem_In, In_sort_labels, In_unique.
Qed.

(** Two positions holding the same pair make [has_duplicates] fire. *)
Lemma has_duplicates_nth (keys : list (cell * cell)) :
  forall (i j : nat) (k : cell * cell),
    i < j -> nth_error keys i = Some k -> nth_error keys j = Some k ->
    has_duplicates keys = true.
Proof.
  induction keys as [|x keys IH]; intros i j k Hij Hi Hj.
  - destruct i; discriminate.
  - simpl. apply orb_true_iff. destruct j as [|j]; [lia|].
    destruct i as [|i]; simpl in Hi, Hj.
    + left. injection Hi as ->. apply existsb_exists.
      exists k. split; [now apply nth_error_In with j | now apply key_eqb_eq].
    + right. apply (IH i j k); [lia | assumption | assumption].
Qed.

Lemma has_duplicates_repeat (keys : list (cell * cell))
    (i j : nat) (k : cell * cell) :
  i <> j -> nth_error keys i = Some k -> nth_error keys j = Some k ->
  has_duplicates keys = true.
Proof.
  intros Hij Hi Hj. destruct (Nat.lt_ge_cases i j) as [H | H].
  - now apply (has_duplicates_nth keys i j k).
  - apply (has_duplicates_nth keys j i k); [lia | assumption | assumption].
Qed.

Lemma getitem_has_column (df : DataFrame) (name : string) :
  has_column df name = true <-> exists l, getitem df name = Ok l.
Proof.
  unfold has_column, getitem.
  destruct (position name (columns df)); split; intros H;
    try discriminate; eauto.
  now destruct H.
Qed.

Lemma getitem_missing (df : DataFrame) (name : string) :
  has_column df name = false -> getitem df name = Exc (KeyError name).
Proof.
  unfold has_column, getitem.
  now destruct (position name (columns df)).
Qed.

(** What a successful [pivot] tells about its frame and its result. *)
Lemma pivot_ok_inv (df : DataFrame) (i c v : string) (t : Table) :
  pivot df i c v = Ok t ->
  exists idx cols vals,
    getitem df i = Ok idx /\ getitem df c = Ok cols /\
    getitem df v = Ok vals /\
    has_duplicates (combine idx cols) = false /\
    index t = sort_labels (unique idx) /\
    tcolumns t = sort_labels (unique cols).
Proof.
  unfold pivot.
  destruct (getitem df i) as [idx|]; simpl; [|discriminate].
  destruct (getitem df c) as [cols|]; simpl; [|discriminate].
  destruct (getitem df v) as [vals|]; simpl; [|discriminate].
  destruct (has_duplicates (combine idx cols)) eqn:E; [discriminate|].
  intros H. injection H as <-. exists idx, cols, vals. now simpl.
Qed.

Lemma cell_position_mem (c : cell) (l : list cell) :
  mem c l = true -> exists p, cell_position c l = Some p.
Proof.
  unfold mem. induction l as [|d l IH]; simpl; [discriminate|].
  destruct (cell_eqb c d); simpl; eauto.
  intros H. destruct (IH H) as [p ->]. simpl. eauto.
Qed.

Lemma positions_ok (labels have : list cell) :
  (forall l, In l labels -> mem l have = true) ->
  exists ps, positions labels have = Ok ps.
Proof.
  induction labels as [|l labels IH]; simpl; intros H; eauto.
  destruct (cell_position_mem l have) as [p ->]; [now apply H; left|].
  destruct IH as [ps ->]; [intros; apply H; now right|].
  simpl. eauto.
Qed.

Lemma select_ok (t : Table) (labels : list cell) :
  (forall l, In l labels -> mem l (tcolumns t) = true) ->
  exists t', select t labels = Ok t' /\
             tcolumns t' = labels /\ index t' = index t.
Proof.
  intros H. unfold select.
  destruct (positions_ok labels (tcolumns t) H) as [ps ->]. simpl. eauto.
Qed.

Lemma available_months_mem (t : Table) (l : cell) :
  In l (map CStr (available_months t)) -> mem l (tcolumns t) = true.
Proof.
  intros H. apply in_map_iff in H as [m [<- Hm]].
  unfold available_months in Hm. now apply filter_In in Hm.
Qed.

End PandasFacts.

(** ** The preview section *)

Section Preview.
Import Pandas.
Variable df : DataFrame.

Lemma preview_plan_failed (e : exn) :
  pivot df "Account" "Month" "Plan" = Exc e ->
  preview_body df = ([], Raised e).
Proof. unfold preview_body. now intros ->. Qed.

Lemma preview_actual_failed (plan : Table) (e : exn) :
  pivot df "Account" "Month" "Plan" = Ok plan ->
  pivot df "Account" "Month" "Actuals" = Exc e ->
  preview_body df = ([], Raised e).
Proof. unfold preview_body. now intros -> ->. Qed.

Lemma available_months_calendar (plan : Table) :
  pivot df "Account" "Month" "Plan" = Ok plan ->
  map CStr (available_months plan) = calendar_columns df.
Proof.
  intros H. apply pivot_ok_inv in H as (idx & cols & vals & _ & Hc & _ & _ & _ & Ht).
  unfold calendar_columns, available_months, periods_present.
  rewrite Hc, Ht. f_equal. apply filter_ext. intros m. apply mem_labels.
Qed.

(** When both pivots succeed the section shows both tables, with the
    same columns, and the three counters. *)
Lemma preview_both_ok (plan actual : Table) :
  pivot df "Account" "Month" "Plan" = Ok plan ->
  pivot df "Account" "Month" "Actuals" = Ok actual ->
  exists plan' actual' accounts,
    select plan (calendar_columns df) = Ok plan' /\
    select actual (calendar_columns df) = Ok actual' /\
    tcolumns plan' = calendar_columns df /\
    tcolumns actual' = calendar_columns df /\
    index plan' = index plan /\ index actual' = index actual /\
    getitem df "Account" = Ok accounts /\
    preview_body df =
      ([Write "### Plan"; ShowTable plan';
        Write "### Actual"; ShowTable actual';
        Write "---"; Columns 3;
        Metric "Total Rows" (len df);
        Metric "Account Types" (List.length (unique accounts));
        Metric "Months" (List.length (calendar_columns df))],
       Done tt).
Proof.
  intros Hp Ha.
  pose proof (available_months_calendar plan Hp) as Hm.
  pose proof (pivot_ok_inv _ _ _ _ _ Hp)
    as (idx & cols & vals & Hi & Hc & _ & _ & _ & Htp).
  pose proof (pivot_ok_inv _ _ _ _ _ Ha)
    as (idx' & cols' & vals' & _ & Hc' & _ & _ & _ & Hta).
  rewrite Hc in Hc'. injection Hc' as <-.
  destruct (select_ok plan (map CStr (available_months plan)))
    as (plan' & Hsp & Hcp & Hip); [apply available_months_mem|].
  destruct (select_ok actual (map CStr (available_months plan)))
    as (actual' & Hsa & Hca & Hia).
  { intros l Hl. rewrite Hta, <- Htp. now apply available_months_mem. }
  exists plan', actual', idx.
  rewrite <- Hm. repeat split; try assumption.
  unfold preview_body. rewrite Hp, Ha. simpl.
  rewrite Hsp. simpl. rewrite Hsa. simpl. rewrite Hi. simpl.
  now rewrite length_map.
Qed.

(** The section never lets an exception out, and never stops the script. *)
Lemma data_preview_done : outcome (data_preview df) = Done tt.
Proof.
  unfold data_preview.
  destruct (pivot df "Account" "Month" "Plan") as [plan|e] eqn:Hp.
  - destruct (pivot df "Account" "Month" "Actuals") as [actual|e] eqn:Ha.
    + destruct (preview_both_ok plan actual Hp Ha)
        as (p & a & acc & _ & _ & _ & _ & _ & _ & _ & ->).
      reflexivity.
    + now rewrite (preview_actual_failed plan e Hp Ha).
  - now rewrite (preview_plan_failed e Hp).
Qed.

(** A failure of the [try] body happens before anything is shown. *)
Lemma preview_raised_early (e : exn) :
  outcome (preview_body df) = Raised e -> preview_body df = ([], Raised e).
Proof.
  destruct (pivot df "Account" "Month" "Plan") as [plan|e'] eqn:Hp.
  - destruct (pivot df "Account" "Month" "Actuals") as [actual|e'] eqn:Ha.
    + destruct (preview_both_ok plan actual Hp Ha)
        as (p & a & acc & _ & _ & _ & _ & _ & _ & _ & ->).
      discriminate.
    + rewrite (preview_actual_failed plan e' Hp Ha). simpl.
      now intros [= ->].
  - rewrite (preview_plan_failed e' Hp). simpl. now intros [= ->].
Qed.

Lemma data_preview_failed (e : exn) :
  outcome (preview_body df) = Raised e ->
  data_preview df =
    ([Expander "Data Preview"; Subheader "Complete Dataset Overview";
      Error ("Error creating pivot table: " ++ exn_str e);
      Write "**Raw Data Preview (first 20 rows):**";
      ShowFrame (head 20 df)],
     Done tt).
Proof.
  intros H. apply preview_raised_early in H.
  unfold data_preview. now rewrite H.
Qed.

End Preview.

(** ** The page and the chat section *)

Lemma render_eq (s : session) (api_key : string) (df : Pandas.DataFrame) :
  outcome (sidebar s) = Done api_key ->
  outcome (load s) = Done df ->
  render s =
    ((trace page_head ++ trace (sidebar s) ++ trace (load s) ++
      trace (data_preview df) ++
      [TextArea "Variance Context" (default_context s);
       Header "Ask Questions";
       TextInput "Ask a question about your data:"])%list,
     Done (api_key, df, entered_context s, typed_question s)).
Proof.
  intros Hk Hd. unfold render.
  rewrite (bind_done page_head _ tt eq_refl).
  rewrite (bind_done (sidebar s) _ _ Hk).
  rewrite (bind_done (load s) _ _ Hd).
  rewrite (bind_done (data_preview df) _ tt (data_preview_done df)).
  reflexivity.
Qed.

Lemma render_done_inv (s : session) (api_key : string)
    (df : Pandas.DataFrame) (context question : string) :
  outcome (render s) = Done (api_key, df, context, question) ->
  outcome (sidebar s) = Done api_key /\ outcome (load s) = Done df /\
  context = entered_context s /\ question = typed_question s.
Proof.
  unfold render. intros H.
  apply bind_done_inv in H as [[] [_ H]].
  apply bind_done_inv in H as [k [Hk H]].
  apply bind_done_inv in H as [d [Hd H]].
  apply bind_done_inv in H as [[] [_ H]].
  apply bind_done_inv in H as [c [Hc H]].
  apply bind_done_inv in H as [q [Hq H]].
  simpl in Hc, Hq, H. injection Hc as <-. injection Hq as <-.
  injection H as <- <- <- <-. auto.
Qed.

Lemma app_eq (s : session) (api_key : string) (df : Pandas.DataFrame)
    (context question : string) :
  outcome (render s) = Done (api_key, df, context, question) ->
  app s =
    ((trace (render s) ++ trace (chat s api_key df context question))%list,
     outcome (chat s api_key df context question)).
Proof. intros H. unfold app. now rewrite (bind_done _ _ _ H). Qed.

Lemma app_stopped (s : session) :
  outcome (render s) = Stopped -> app s = (trace (render s), Stopped).
Proof. intros H. unfold app. now rewrite (bind_stopped _ _ H). Qed.

Lemma app_raised (s : session) (e : exn) :
  outcome (render s) = Raised e -> app s = (trace (render s), Raised e).
Proof. intros H. unfold app. now rewrite (bind_raised _ _ _ H). Qed.

Lemma chat_keyless (s : session) (api_key : string) (df : Pandas.DataFrame)
    (context question : string) :
  truthy api_key = false -> truthy question = true ->
  chat s api_key df context question =
    ([Error "Please enter your API Key in the sidebar."], Done tt).
Proof. unfold chat. now intros -> ->. Qed.

Lemma chat_unasked (s : session) (api_key : string) (df : Pandas.DataFrame)
    (context : string) :
  chat s api_key df context "" = ret tt.
Proof. reflexivity. Qed.

Lemma show_response_done (r : Agent.response) :
  outcome (show_response r) = Done tt.
Proof.
  destruct r as [items|text]; simpl; [|reflexivity].
  now destruct (dict_get "output" items).
Qed.

(** The events of one question put to the agent. *)
Lemma ask_eq (s : session) (api_key : string) (df : Pandas.DataFrame)
    (context question : string) :
  let prompt := final_prompt context question in
  let agent := Agent.mkAgent (Agent.mkLlm "gemini-pro" api_key 0) df
                 agent_kwargs in
  let run := plan_of s df prompt in
  ask s api_key df context question =
    ((LLMCreated (Agent.mkLlm "gemini-pro" api_key 0) :: AgentCreated agent ::
      Spinner "Analyzing..." :: AgentInvoked prompt ::
      map Tool (flat_map Agent.python_repl_ast (Agent.proposals run)) ++
      match Agent.ending run with
      | Ok r => trace (show_response r)
      | Exc _ => []
      end)%list,
     match Agent.ending run with
     | Ok _ => Done tt
     | Exc e => Raised e
     end).
Proof.
  intros prompt agent run. unfold ask, run_agent, Agent.invoke. simpl.
  fold prompt. fold run.
  destruct (Agent.ending run) as [r|e]; simpl.
  2: now rewrite app_nil_r.
  - pose proof (show_response_done r) as H.
    destruct (show_response r) as [t o]. simpl in *. subst.
    now rewrite app_nil_r.
Qed.

Lemma chat_asked (s : session) (api_key : string) (df : Pandas.DataFrame)
    (context question : string) :
  truthy api_key = true -> truthy question = true ->
  let prompt := final_prompt context question in
  let agent := Agent.mkAgent (Agent.mkLlm "gemini-pro" api_key 0) df
                 agent_kwargs in
  let run := plan_of s df prompt in
  chat s api_key df context question =
    ((LLMCreated (Agent.mkLlm "gemini-pro" api_key 0) :: AgentCreated agent ::
      Spinner "Analyzing..." :: AgentInvoked prompt ::
      map Tool (flat_map Agent.python_repl_ast (Agent.proposals run)) ++
      match Agent.ending run with
      | Ok r => trace (show_response r)
      | Exc e => [Error ("An error occurred: " ++ exn_str e)]
      end)%list,
     Done tt).
Proof.
  intros Hk Hq prompt agent run. unfold chat. rewrite Hk, Hq. simpl.
  rewrite ask_eq. fold prompt. fold run. fold agent.
  destruct (Agent.ending run) as [r|e]; simpl.
  - reflexivity.
  - now rewrite app_nil_r.
Qed.

Lemma chat_agent_free (s : session) (api_key : string)
    (df : Pandas.DataFrame) (context question : string) :
  truthy question && truthy api_key = false ->
  agent_free (chat s api_key df context question).
Proof.
  intros H. unfold chat. rewrite H.
  destruct (truthy question && negb (truthy api_key)); quiet.
Qed.

Lemma agent_free_not_in {A} (m : script A) (e : event) :
  agent_free m -> agent_event e = true -> ~ In e (trace m).
Proof.
  unfold agent_free. intros H He Hin.
  rewrite Forall_forall in H. specialize (H e Hin). congruence.
Qed.

Lemma has_credential_key (s : session) (api_key : string) :
  outcome (sidebar s) = Done api_key ->
  has_credential s = truthy api_key.
Proof. unfold has_credential. now intros ->. Qed.

(** ** The pivot view *)

(** C4: a frame in which two rows carry the same (account, period) pair
    cannot be pivoted: [pivot] raises for every value column, with the
    duplicate-entries error whenever that column exists; the preview then
    reports the error and shows the raw rows, and no pivot table, partial or
    whole, is shown. *)
Theorem duplicate_pair_fails_pivot (df : Pandas.DataFrame) (i j : nat)
    (k : Pandas.cell * Pandas.cell) (v : string) :
  i <> j ->
  nth_error (account_period df) i = Some k ->
  nth_error (account_period df) j = Some k ->
  (exists e, Pandas.pivot df "Account" "Month" v = Exc e /\
             (has_column df v = true -> e = Pandas.duplicate_entries)) /\
  (exists e,
     data_preview df =
       ([Expander "Data Preview"; Subheader "Complete Dataset Overview";
         Error ("Error creating pivot table: " ++ exn_str e);
         Write "**Raw Data Preview (first 20 rows):**";
         ShowFrame (Pandas.head 20 df)],
        Done tt) /\
     (has_column df "Plan" = true -> e = Pandas.duplicate_entries)) /\
  (forall t, ~ In (ShowTable t) (trace (data_preview df))).
Proof.
  intros Hij Hi Hj.
  assert (exists accounts months,
             Pandas.getitem df "Account" = Ok accounts /\
             Pandas.getitem df "Month" = Ok months /\
             Pandas.has_duplicates (combine accounts months) = true)
    as (accounts & months & Hacc & Hmon & Hdup).
  { unfold account_period in Hi, Hj.
    destruct (Pandas.getitem df "Account") as [accounts|];
      [|destruct i; discriminate].
    destruct (Pandas.getitem df "Month") as [months|];
      [|destruct i; discriminate].
    exists accounts, months. repeat split.
    now apply (has_duplicates_repeat _ i j k). }
  assert (forall w, exists e,
             Pandas.pivot df "Account" "Month" w = Exc e /\
             (has_column df w = true -> e = Pandas.duplicate_entries))
    as Hpivot.
  { intros w. unfold Pandas.pivot. rewrite Hacc, Hmon. simpl.
    destruct (Pandas.getitem df w) as [vals|e] eqn:Hw; simpl.
    - rewrite Hdup. eauto.
    - exists e. split; [reflexivity|]. intros Hc.
      apply getitem_has_column in Hc as [l Hl]. congruence. }
  split; [apply Hpivot|].
  destruct (Hpivot "Plan") as (e & He & Hkind).
  pose proof (preview_plan_failed df e He) as Hbody.
  assert (outcome (preview_body df) = Raised e) as Hout
      by now rewrite Hbody.
  split.
  - exists e. split; [now apply data_preview_failed | exact Hkind].
  - intros t. rewrite (data_preview_failed df e Hout). simpl.
    intros H. repeat (destruct H as [H | H]; try discriminate).
    contradiction.
Qed.

Lemma duplicate_pair_fails_pivot_witness :
  0 <> 2 /\
  nth_error (account_period Samples.ledger_twice) 0
    = Some (Pandas.CStr "Revenue", Pandas.CStr "Jan") /\
  nth_error (account_period Samples.ledger_twice) 2
    = Some (Pandas.CStr "Revenue", Pandas.CStr "Jan") /\
  (exists e, Pandas.pivot Samples.ledger_twice "Account" "Month" "Actuals"
               = Exc e /\
             (has_column Samples.ledger_twice "Actuals" = true ->
              e = Pandas.duplicate_entries)) /\
  (forall t, ~ In (ShowTable t) (trace (data_preview Samples.ledger_twice))).
Proof.
  split; [lia|]. split; [reflexivity|]. split; [reflexivity|].
  destruct (duplicate_pair_fails_pivot Samples.ledger_twice 0 2
              (Pandas.CStr "Revenue", Pandas.CStr "Jan") "Actuals")
    as (Hpivot & _ & Hshown); [lia | reflexivity | reflexivity |].
  split; [exact Hpivot | exact Hshown].
Defined.

(** ** Loading *)

(** The script checks no column when it loads: an upload that parses as a
    table without the actuals column is handed on as the data set, and no
    exception is raised. *)
Lemma load_accepts_missing_column :
  upload Samples.partial = Some (Ok Samples.plan_only) /\
  has_column Samples.plan_only "Actuals" = false /\
  has_required_columns Samples.plan_only = false /\
  load Samples.partial =
    ([FileUploader "Upload your CSV file";
      Success "File uploaded successfully!"],
     Done Samples.plan_only) /\
  (forall e, outcome (load Samples.partial) <> Raised e).
Proof. repeat split. discriminate. Qed.

(** C5, as the script has it: whatever parses as a table is returned as
    parsed (same columns, same rows), whether or not the required columns
    are there; a frame that lacks one makes the pivot view fail instead,
    which reports the error and shows the raw rows. *)
Theorem load_returns_table_unchecked (s : session) (df : Pandas.DataFrame) :
  upload s = Some (Ok df) \/ (upload s = None /\ sample s = Ok df) ->
  outcome (load s) = Done df /\
  (has_required_columns df = false ->
   exists e,
     data_preview df =
       ([Expander "Data Preview"; Subheader "Complete Dataset Overview";
         Error ("Error creating pivot table: " ++ exn_str e);
         Write "**Raw Data Preview (first 20 rows):**";
         ShowFrame (Pandas.head 20 df)],
        Done tt)).
Proof.
  intros Hsrc. split.
  - unfold load. destruct Hsrc as [-> | [-> ->]]; reflexivity.
  - intros Hreq.
    assert (exists e, outcome (preview_body df) = Raised e) as [e He].
    { destruct (Pandas.pivot df "Account" "Month" "Plan") as [plan|e] eqn:Hp.
      - destruct (Pandas.pivot df "Account" "Month" "Actuals")
          as [actual|e] eqn:Ha.
        + exfalso.
          apply pivot_ok_inv in Hp as (? & ? & ? & H1 & H2 & H3 & _).
          apply pivot_ok_inv in Ha as (? & ? & ? & _ & _ & H4 & _).
          unfold has_required_columns, required_columns in Hreq.
          simpl in Hreq.
          rewrite (proj2 (getitem_has_column df "Account")) in Hreq by eauto.
          rewrite (proj2 (getitem_has_column df "Month")) in Hreq by eauto.
          rewrite (proj2 (getitem_has_column df "Plan")) in Hreq by eauto.
          rewrite (proj2 (getitem_has_column df "Actuals")) in Hreq by eauto.
          discriminate.
        + exists e. now rewrite (preview_actual_failed df plan e Hp Ha).
      - exists e. now rewrite (preview_plan_failed df e Hp). }
    exists e. now apply data_preview_failed.
Qed.

Lemma load_returns_table_unchecked_witness :
  (upload Samples.partial = Some (Ok Samples.plan_only) \/
   (upload Samples.partial = None /\
    sample Samples.partial = Ok Samples.plan_only)) /\
  outcome (load Samples.partial) = Done Samples.plan_only /\
  (has_required_columns Samples.plan_only = false ->
   exists e,
     data_preview Samples.plan_only =
       ([Expander "Data Preview"; Subheader "Complete Dataset Overview";
         Error ("Error creating pivot table: " ++ exn_str e);
         Write "**Raw Data Preview (first 20 rows):**";
         ShowFrame (Pandas.head 20 Samples.plan_only)],
        Done tt)).
Proof.
  split; [left; reflexivity|].
  apply (load_returns_table_unchecked Samples.partial Samples.plan_only).
  left; reflexivity.
Defined.

Lemma sidebar_no_question_box (s : session) :
  ~ In (TextInput "Ask a question about your data:") (trace (sidebar s)).
Proof.
  unfold sidebar.
  destruct (secrets_key s) as [k|[]]; simpl;
    try (destruct (truthy (typed_key s)); simpl);
    intros H; repeat (destruct H as [H | H]; try discriminate);
    contradiction.
Qed.

(** C7: with no upload the script reads the sample file and uses it; when
    that file is not found either, loading reports it and stops the script:
    the run ends there, before the question box is drawn, and the agent is
    neither built nor run. *)
Theorem load_falls_back_then_halts (s : session) :
  upload s = None ->
  (forall df, sample s = Ok df ->
     load s =
       ([FileUploader "Upload your CSV file";
         Info "Using sample data. Upload a CSV to use your own data."],
        Done df)) /\
  (forall msg, sample s = Exc (FileNotFoundError msg) ->
     load s =
       ([FileUploader "Upload your CSV file";
         Error "sample_data.csv not found. Please upload a file."],
        Stopped) /\
     (forall api_key, outcome (sidebar s) = Done api_key ->
        app s =
          ((trace page_head ++ trace (sidebar s) ++ trace (load s))%list,
           Stopped)) /\
     (forall done, outcome (app s) <> Done done) /\
     ~ In (TextInput "Ask a question about your data:") (trace (app s)) /\
     agent_free (app s)).
Proof.
  intros Hup. split.
  - intros df Hs. unfold load. now rewrite Hup, Hs.
  - intros msg Hs.
    assert (load s =
              ([FileUploader "Upload your CSV file";
                Error "sample_data.csv not found. Please upload a file."],
               Stopped)) as Hload
        by (unfold load; now rewrite Hup, Hs).
    split; [exact Hload|].
    assert (~ In (TextInput "Ask a question about your data:")
              (trace page_head ++ trace (sidebar s))) as Hhead.
    { intros H. apply in_app_iff in H as [H | H].
      - simpl in H. repeat (destruct H as [H | H]; try discriminate).
        contradiction.
      - now apply sidebar_no_question_box in H. }
    assert (forall t o, app s = (t, o) ->
              Forall (fun e => agent_event e = false) t ->
              agent_free (app s)) as Hfree
        by (intros t o -> H; exact H).
    assert (Forall (fun e => agent_event e = false)
              (trace page_head ++ trace (sidebar s))) as Hquiet
        by (apply Forall_app; split;
            [repeat constructor | apply sidebar_agent_free]).
    destruct (outcome (sidebar s)) as [k| |e] eqn:Hk.
    + assert (app s =
                ((trace page_head ++ trace (sidebar s) ++ trace (load s))%list,
                 Stopped)) as Happ.
      { unfold app, render.
        rewrite (bind_done page_head _ tt eq_refl).
        rewrite (bind_done (sidebar s) _ _ Hk).
        rewrite (bind_stopped (load s)) by now rewrite Hload.
        reflexivity. }
      split; [intros api_key _; exact Happ|].
      split; [rewrite Happ; discriminate|].
      split.
      2:{ apply (Hfree _ _ Happ). rewrite app_assoc.
          apply Forall_app; split; [exact Hquiet | apply load_agent_free]. }
      assert (~ In (TextInput "Ask a question about your data:")
                (trace page_head ++ trace (sidebar s) ++ trace (load s)))
        as Hbox.
      { rewrite app_assoc. intros H.
        apply in_app_iff in H as [H | H]; [now apply Hhead|].
        rewrite Hload in H. simpl in H.
        repeat (destruct H as [H | H]; try discriminate). contradiction. }
      rewrite Happ. exact Hbox.
    + assert (app s =
                ((trace page_head ++ trace (sidebar s))%list, Stopped))
        as Happ.
      { unfold app, render.
        rewrite (bind_done page_head _ tt eq_refl).
        rewrite (bind_stopped (sidebar s) _ Hk). reflexivity. }
      split; [discriminate|].
      split; [rewrite Happ; discriminate|].
      split; [|exact (Hfree _ _ Happ Hquiet)].
      rewrite Happ. exact Hhead.
    + assert (app s =
                ((trace page_head ++ trace (sidebar s))%list, Raised e))
        as Happ.
      { unfold app, render.
        rewrite (bind_done page_head _ tt eq_refl).
        rewrite (bind_raised (sidebar s) _ _ Hk). reflexivity. }
      split; [discriminate|].
      split; [rewrite Happ; discriminate|].
      split; [|exact (Hfree _ _ Happ Hquiet)].
      rewrite Happ. exact Hhead.
Qed.

Lemma load_falls_back_then_halts_witness :
  upload Samples.empty_handed = None /\
  upload Samples.asking = None /\
  load Samples.asking =
    ([FileUploader "Upload your CSV file";
      Info "Using sample data. Upload a CSV to use your own data."],
     Done Samples.ledger) /\
  outcome (app Samples.empty_handed) = Stopped /\
  ~ In (TextInput "Ask a question about your data:")
       (trace (app Samples.empty_handed)).
Proof.
  split; [reflexivity|]. split; [reflexivity|]. split.
  - apply (proj1 (load_falls_back_then_halts Samples.asking eq_refl)).
    reflexivity.
  - destruct (proj2 (load_falls_back_then_halts Samples.empty_handed eq_refl)
                _ eq_refl)
      as (_ & Happ & _ & Hbox & _).
    split; [|exact Hbox].
    now rewrite (Happ "key" eq_refl).
Defined.

(** ** Questions *)

(** C3: a question typed while no key is available is turned down where
    the script decides what to do with it: the run shows the page, then the
    one message asking for the key, and ends normally; no language model and
    no agent is built, nothing is invoked. *)
Theorem question_without_key_rejected (s : session) (api_key : string)
    (df : Pandas.DataFrame) (context question : string) :
  has_credential s = false ->
  outcome (render s) = Done (api_key, df, context, question) ->
  truthy question = true ->
  app s =
    ((trace (render s) ++
      [Error "Please enter your API Key in the sidebar."])%list,
     Done tt) /\
  agent_free (app s).
Proof.
  intros Hcred Hrender Hq.
  assert (truthy api_key = false) as Hk.
  { apply render_done_inv in Hrender as (Hside & _).
    now rewrite <- (has_credential_key s api_key Hside). }
  assert (app s =
            ((trace (render s) ++
              [Error "Please enter your API Key in the sidebar."])%list,
             Done tt)) as Happ
      by now rewrite (app_eq s _ _ _ _ Hrender), chat_keyless.
  split; [exact Happ|].
  unfold agent_free. rewrite Happ. simpl trace.
  apply Forall_app. split; [apply render_agent_free | now repeat constructor].
Qed.

Lemma question_without_key_rejected_witness :
  has_credential Samples.keyless = false /\
  outcome (render Samples.keyless)
    = Done ("", Samples.ledger, sample_context, Samples.jan_question) /\
  truthy Samples.jan_question = true /\
  app Samples.keyless =
    ((trace (render Samples.keyless) ++
      [Error "Please enter your API Key in the sidebar."])%list,
     Done tt) /\
  agent_free (app Samples.keyless).
Proof.
  split; [reflexivity|]. split; [reflexivity|]. split; [reflexivity|].
  apply (question_without_key_rejected Samples.keyless ""
           Samples.ledger sample_context Samples.jan_question);
    reflexivity.
Defined.

(** C10: with the question box empty the run is the page and nothing
    more, key or no key: the trace is that of drawing the page, the script
    ends as the page does, the chat section contributes no event (so no
    answer and no message), and no agent is built or invoked. *)
Theorem empty_question_is_noop (s : session) :
  typed_question s = "" ->
  trace (app s) = trace (render s) /\
  outcome (app s) =
    match outcome (render s) with
    | Done _ => Done tt
    | Stopped => Stopped
    | Raised e => Raised e
    end /\
  (forall api_key df context, chat s api_key df context "" = ret tt) /\
  agent_free (app s).
Proof.
  intros Hq.
  assert (trace (app s) = trace (render s) /\
          outcome (app s) =
            match outcome (render s) with
            | Done _ => Done tt
            | Stopped => Stopped
            | Raised e => Raised e
            end) as [Ht Ho].
  { destruct (outcome (render s)) as [[[[k df] c] q]| |e] eqn:Hr.
    - rewrite (app_eq s _ _ _ _ Hr).
      apply render_done_inv in Hr as (_ & _ & _ & ->).
      rewrite Hq, chat_unasked. simpl. now rewrite app_nil_r.
    - now rewrite (app_stopped s Hr).
    - now rewrite (app_raised s e Hr). }
  repeat split; try assumption.
  unfold agent_free. rewrite Ht. apply render_agent_free.
Qed.

Lemma empty_question_is_noop_witness :
  typed_question Samples.idle = "" /\
  has_credential Samples.idle = true /\
  trace (app Samples.idle) = trace (render Samples.idle) /\
  outcome (app Samples.idle) = Done tt /\
  agent_free (app Samples.idle).
Proof.
  split; [reflexivity|]. split; [reflexivity|].
  destruct (empty_question_is_noop Samples.idle eq_refl)
    as (Ht & Ho & _ & Hfree).
  split; [exact Ht|]. split; [exact Ho | exact Hfree].
Defined.

(** C8: a failure of the pivot view stays in the preview.  When building
    the pivots raises, the run still draws the rest of the page and, given a
    key and a question, builds the agent over the very frame that could not
    be pivoted and invokes it; if the agent comes back with an answer, that
    answer is the last thing shown and the script ends normally.  The only
    trace of the failure is the message in the preview. *)
Theorem pivot_failure_stays_in_preview (s : session) (api_key : string)
    (df : Pandas.DataFrame) (e : exn)
    (items : list (string * string)) (output : string) :
  outcome (sidebar s) = Done api_key ->
  outcome (load s) = Done df ->
  outcome (preview_body df) = Raised e ->
  truthy api_key = true ->
  truthy (typed_question s) = true ->
  Agent.ending
    (plan_of s df (final_prompt (entered_context s) (typed_question s)))
    = Ok (Agent.RDict items) ->
  dict_get "output" items = Some output ->
  app s =
    ((trace page_head ++ trace (sidebar s) ++ trace (load s) ++
      [Expander "Data Preview"; Subheader "Complete Dataset Overview";
       Error ("Error creating pivot table: " ++ exn_str e);
       Write "**Raw Data Preview (first 20 rows):**";
       ShowFrame (Pandas.head 20 df)] ++
      [TextArea "Variance Context" (default_context s);
       Header "Ask Questions";
       TextInput "Ask a question about your data:"] ++
      [LLMCreated (Agent.mkLlm "gemini-pro" api_key 0);
       AgentCreated
         (Agent.mkAgent (Agent.mkLlm "gemini-pro" api_key 0) df agent_kwargs);
       Spinner "Analyzing...";
       AgentInvoked
         (final_prompt (entered_context s) (typed_question s))] ++
      map Tool
        (flat_map Agent.python_repl_ast
           (Agent.proposals
              (plan_of s df
                 (final_prompt (entered_context s) (typed_question s))))) ++
      [Write output])%list,
     Done tt).
Proof.
  intros Hk Hd He Hkey Hq Hend Hout.
  pose proof (render_eq s api_key df Hk Hd) as Hr.
  assert (outcome (render s) =
            Done (api_key, df, entered_context s, typed_question s)) as Hro
      by now rewrite Hr.
  rewrite (app_eq s _ _ _ _ Hro).
  rewrite (chat_asked s api_key df _ _ Hkey Hq).
  rewrite Hend. simpl show_response. rewrite Hout.
  rewrite Hr, (data_preview_failed df e He).
  cbn [trace outcome fst snd]. f_equal.
  rewrite <- !app_assoc. reflexivity.
Qed.

Lemma pivot_failure_stays_in_preview_witness :
  outcome (sidebar Samples.doubled) = Done "key" /\
  outcome (load Samples.doubled) = Done Samples.ledger_twice /\
  outcome (preview_body Samples.ledger_twice)
    = Raised Pandas.duplicate_entries /\
  In (Error "Error creating pivot table: Index contains duplicate entries, cannot reshape")
     (trace (app Samples.doubled)) /\
  In (AgentCreated
        (Agent.mkAgent (Agent.mkLlm "gemini-pro" "key" 0)
           Samples.ledger_twice agent_kwargs))
     (trace (app Samples.doubled)) /\
  last (trace (app Samples.doubled)) Sidebar
    = Write "Favorable variance of 2." /\
  outcome (app Samples.doubled) = Done tt.
Proof.
  split; [reflexivity|]. split; [reflexivity|]. split; [reflexivity|].
  rewrite (pivot_failure_stays_in_preview Samples.doubled "key"
             Samples.ledger_twice Pandas.duplicate_entries
             [("input",
               final_prompt (entered_context Samples.doubled)
                 (typed_question Samples.doubled));
              ("output", "Favorable variance of 2.")]
             "Favorable variance of 2."
             eq_refl eq_refl eq_refl eq_refl eq_refl eq_refl eq_refl).
  split; [vm_compute; tauto|]. split; [vm_compute; tauto|].
  split; reflexivity.
Defined.

(** The instruction the script composes closes with a request for a clear
    and concise answer based on the data and context provided.  Nothing in
    it says that the answer must come from them alone: for a context and a
    question that do not use the word, the one instruction the agent is
    invoked with does not contain "only" (nor "solely", nor "exclusively"). *)
Lemma directive_does_not_say_only :
  entered_context Samples.doubled = "Jan was booked twice." /\
  typed_question Samples.doubled = "What was the Jan variance for Revenue?" /\
  In (AgentInvoked Samples.doubled_instruction)
     (trace (app Samples.doubled)) /\
  (forall p, In (AgentInvoked p) (trace (app Samples.doubled)) ->
             p = Samples.doubled_instruction) /\
  mentions "only" Samples.doubled_instruction = false /\
  mentions "solely" Samples.doubled_instruction = false /\
  mentions "exclusively" Samples.doubled_instruction = false /\
  mentions "concise" Samples.doubled_instruction = true.
Proof.
  split; [reflexivity|]. split; [reflexivity|]. split; [vm_compute; tauto|].
  split; [|repeat split].
  intros p H. vm_compute in H.
  repeat (destruct H as [H | H]; try discriminate);
    [now injection H as <- | contradiction].
Qed.

(** C9, as the script has it: whenever a question is put to the agent, the
    instruction it is invoked with is one string: a fixed lead-in, the
    context exactly as entered, a blank line and the question exactly as
    typed, a blank line and the closing request for a clear and concise
    answer based on the data and context provided.  The agent is invoked
    with that string and with no other.  The closing request does not say
    to answer from the data and context only. *)
Theorem prompt_is_context_then_question (s : session) (api_key : string)
    (df : Pandas.DataFrame) (context question : string) :
  outcome (render s) = Done (api_key, df, context, question) ->
  truthy api_key = true ->
  truthy question = true ->
  let instruction :=
    "Context provided by user: " ++ context ++ "

Question: " ++ question ++ "

Please provide a clear and concise answer based on the data and context provided." in
  In (AgentInvoked instruction) (trace (app s)) /\
  (forall p, In (AgentInvoked p) (trace (app s)) -> p = instruction) /\
  (context = entered_context s /\ question = typed_question s) /\
  mentions "only"
    "Please provide a clear and concise answer based on the data and context provided."
    = false.
Proof.
  intros Hr Hk Hq instruction.
  change instruction with (final_prompt context question).
  rewrite (app_eq s _ _ _ _ Hr), (chat_asked s _ _ _ _ Hk Hq).
  cbn [trace outcome fst snd].
  split; [|split; [|split; [|reflexivity]]].
  - apply in_app_iff. right. simpl. auto.
  - intros p H. apply in_app_iff in H as [H | H].
    + exfalso. now apply (agent_free_not_in (render s) (AgentInvoked p)
                            (render_agent_free s)).
    + simpl in H. destruct H as [H | [H | [H | [H | H]]]];
        try discriminate; [now injection H|].
      exfalso. apply in_app_iff in H as [H | H].
      * apply in_map_iff in H as [x [E _]]. discriminate.
      * destruct (Agent.ending _) as [r|e'].
        -- destruct r as [items|text]; simpl in H.
           ++ destruct (dict_get "output" items); simpl in H;
                destruct H as [H | []]; discriminate.
           ++ destruct H as [H | []]; discriminate.
        -- destruct H as [H | []]; discriminate.
  - now apply render_done_inv in Hr as (_ & _ & -> & ->).
Qed.

Lemma prompt_is_context_then_question_witness :
  outcome (render Samples.doubled)
    = Done ("key", Samples.ledger_twice, "Jan was booked twice.",
            Samples.jan_question) /\
  truthy "key" = true /\
  truthy Samples.jan_question = true /\
  In (AgentInvoked "Context provided by user: Jan was booked twice.

Question: What was the Jan variance for Revenue?

Please provide a clear and concise answer based on the data and context provided.")
     (trace (app Samples.doubled)).
Proof.
  split; [reflexivity|]. split; [reflexivity|]. split; [reflexivity|].
  apply (prompt_is_context_then_question Samples.doubled "key"
           Samples.ledger_twice "Jan was booked twice."
           Samples.jan_question eq_refl eq_refl eq_refl).
Defined.

(** ** The sidebar and the data source, case by case *)

Lemma sidebar_stored (s : session) (k : string) :
  secrets_key s = Ok k ->
  sidebar s =
    ([Sidebar; Header "Configuration";
      Success "✅ API Key loaded from secrets"],
     Done k).
Proof. unfold sidebar. now intros ->. Qed.

Lemma sidebar_typed (s : session) (e : exn) :
  secrets_key s = Exc e -> secrets_missing e = true ->
  sidebar s =
    ((Sidebar :: Header "Configuration" ::
      TextInput "Enter Google Gemini API Key" ::
      if truthy (typed_key s) then []
      else [Warning "Please enter your Google Gemini API Key to proceed."]),
     Done (typed_key s)).
Proof.
  unfold sidebar. intros -> He. simpl. rewrite He.
  now destruct (truthy (typed_key s)).
Qed.

Lemma sidebar_raised (s : session) (e : exn) :
  secrets_key s = Exc e -> secrets_missing e = false ->
  sidebar s = ([Sidebar; Header "Configuration"], Raised e).
Proof. unfold sidebar. intros -> He. simpl. now rewrite He. Qed.

Lemma render_sidebar_raised (s : session) (e : exn) :
  outcome (sidebar s) = Raised e ->
  render s = ((trace page_head ++ trace (sidebar s))%list, Raised e).
Proof.
  intros H. unfold render.
  rewrite (bind_done page_head _ tt eq_refl).
  now rewrite (bind_raised (sidebar s) _ _ H).
Qed.

Lemma render_load_stopped (s : session) (api_key : string) :
  outcome (sidebar s) = Done api_key -> outcome (load s) = Stopped ->
  render s =
    ((trace page_head ++ trace (sidebar s) ++ trace (load s))%list, Stopped).
Proof.
  intros Hk Hl. unfold render.
  rewrite (bind_done page_head _ tt eq_refl).
  rewrite (bind_done (sidebar s) _ _ Hk).
  now rewrite (bind_stopped (load s) _ Hl).
Qed.

Lemma render_load_raised (s : session) (api_key : string) (e : exn) :
  outcome (sidebar s) = Done api_key -> outcome (load s) = Raised e ->
  render s =
    ((trace page_head ++ trace (sidebar s) ++ trace (load s))%list, Raised e).
Proof.
  intros Hk Hl. unfold render.
  rewrite (bind_done page_head _ tt eq_refl).
  rewrite (bind_done (sidebar s) _ _ Hk).
  now rewrite (bind_raised (load s) _ _ Hl).
Qed.

Lemma chat_done (s : session) (api_key : string) (df : Pandas.DataFrame)
    (context question : string) :
  outcome (chat s api_key df context question) = Done tt.
Proof.
  destruct (truthy question) eqn:Hq, (truthy api_key) eqn:Hk.
  - now rewrite (chat_asked s _ _ _ _ Hk Hq).
  - now rewrite (chat_keyless s _ _ _ _ Hk Hq).
  - unfold chat. now rewrite Hq.
  - unfold chat. now rewrite Hq.
Qed.

Lemma app_of_render (s : session) :
  app s =
    match outcome (render s) with
    | Done (api_key, df, context, question) =>
        ((trace (render s) ++ trace (chat s api_key df context question))%list,
         Done tt)
    | Stopped => (trace (render s), Stopped)
    | Raised e => (trace (render s), Raised e)
    end.
Proof.
  destruct (outcome (render s)) as [[[[k df] c] q]| |e] eqn:Hr.
  - rewrite (app_eq s _ _ _ _ Hr). now rewrite chat_done.
  - now apply app_stopped.
  - now apply app_raised.
Qed.

Lemma sidebar_outcome (s : session) :
  outcome (sidebar s) =
    match secrets_key s with
    | Ok k => Done k
    | Exc e => if secrets_missing e then Done (typed_key s) else Raised e
    end.
Proof.
  destruct (secrets_key s) as [k|e] eqn:Hs.
  - now rewrite (sidebar_stored s k Hs).
  - destruct (secrets_missing e) eqn:Hm.
    + now rewrite (sidebar_typed s e Hs Hm).
    + now rewrite (sidebar_raised s e Hs Hm).
Qed.

Lemma load_outcome (s : session) :
  outcome (load s) =
    match upload s with
    | Some (Ok df) => Done df
    | Some (Exc e) => Raised e
    | None =>
        match sample s with
        | Ok df => Done df
        | Exc e => if file_not_found e then Stopped else Raised e
        end
    end.
Proof.
  unfold load. destruct (upload s) as [[df|e]|]; try reflexivity.
  destruct (sample s) as [df|e]; simpl; [reflexivity|].
  now destruct (file_not_found e).
Qed.

Lemma sidebar_never_stops (s : session) : outcome (sidebar s) <> Stopped.
Proof.
  rewrite sidebar_outcome. destruct (secrets_key s) as [k|e]; [discriminate|].
  destruct (secrets_missing e); discriminate.
Qed.

(** A run, spelled out by how the sidebar and the data source end. *)
Lemma app_by_parts (s : session) :
  app s =
    match outcome (sidebar s) with
    | Done api_key =>
        match outcome (load s) with
        | Done df =>
            ((trace page_head ++ trace (sidebar s) ++ trace (load s) ++
              trace (data_preview df) ++
              [TextArea "Variance Context" (default_context s);
               Header "Ask Questions";
               TextInput "Ask a question about your data:"] ++
              trace (chat s api_key df (entered_context s)
                       (typed_question s)))%list,
             Done tt)
        | Stopped =>
            ((trace page_head ++ trace (sidebar s) ++ trace (load s))%list,
             Stopped)
        | Raised e =>
            ((trace page_head ++ trace (sidebar s) ++ trace (load s))%list,
             Raised e)
        end
    | Stopped => ((trace page_head ++ trace (sidebar s))%list, Stopped)
    | Raised e => ((trace page_head ++ trace (sidebar s))%list, Raised e)
    end.
Proof.
  rewrite app_of_render.
  destruct (outcome (sidebar s)) as [k| |e] eqn:Hk.
  - destruct (outcome (load s)) as [df| |e] eqn:Hl.
    + rewrite (render_eq s k df Hk Hl). cbn [trace outcome fst snd].
      now rewrite <- !app_assoc.
    + now rewrite (render_load_stopped s k Hk Hl).
    + now rewrite (render_load_raised s k e Hk Hl).
  - now apply sidebar_never_stops in Hk.
  - now rewrite (render_sidebar_raised s e Hk).
Qed.

Lemma show_response_trace (r : Agent.response) :
  trace (show_response r) = [closing_event (Ok r)].
Proof.
  destruct r as [items|text]; simpl; [|reflexivity].
  now destruct (dict_get "output" items).
Qed.

(** The chat section when a question goes to the agent, with its last
    event named. *)
Lemma chat_asked_closing (s : session) (api_key : string)
    (df : Pandas.DataFrame) (context question : string) :
  truthy api_key = true -> truthy question = true ->
  chat s api_key df context question =
    ((LLMCreated (Agent.mkLlm "gemini-pro" api_key 0) ::
      AgentCreated
        (Agent.mkAgent (Agent.mkLlm "gemini-pro" api_key 0) df agent_kwargs) ::
      Spinner "Analyzing..." ::
      AgentInvoked (final_prompt context question) ::
      map Tool
        (flat_map Agent.python_repl_ast
           (Agent.proposals (plan_of s df (final_prompt context question)))) ++
      [closing_event
         (Agent.ending (plan_of s df (final_prompt context question)))])%list,
     Done tt).
Proof.
  intros Hk Hq. rewrite (chat_asked s _ _ _ _ Hk Hq).
  destruct (Agent.ending _) as [r|e]; [|reflexivity].
  now rewrite show_response_trace.
Qed.

Lemma chat_silent (s : session) (api_key : string) (df : Pandas.DataFrame)
    (context question : string) :
  truthy question = false ->
  chat s api_key df context question = ret tt.
Proof. unfold chat. now intros ->. Qed.

Lemma closing_event_plain (r : pyresult Agent.response) :
  is_setup (closing_event r) = false.
Proof.
  destruct r as [[items|text]|e]; simpl; auto.
  destruct (dict_get "output" items); auto.
Qed.

Lemma agent_free_no_setup {A} (m : script A) :
  agent_free m -> filter is_setup (trace m) = [].
Proof.
  unfold agent_free. induction 1 as [|e t He _ IH]; simpl; [reflexivity|].
  destruct e; simpl in *; try discriminate; exact IH.
Qed.

Lemma setup_of_tools (l : list Agent.tool_event) :
  filter is_setup (map Tool l) = [].
Proof. induction l as [|x l IH]; simpl; auto. Qed.

(** Where an event of a run can come from. *)
Lemma app_event_origin (s : session) (ev : event) :
  In ev (trace (app s)) ->
  In ev (trace page_head) \/ In ev (trace (sidebar s)) \/
  In ev (trace (load s)) \/
  exists api_key df,
    outcome (sidebar s) = Done api_key /\ outcome (load s) = Done df /\
    (In ev (trace (data_preview df)) \/
     In ev [TextArea "Variance Context" (default_context s);
            Header "Ask Questions";
            TextInput "Ask a question about your data:"] \/
     In ev (trace (chat s api_key df (entered_context s)
                     (typed_question s)))).
Proof.
  rewrite app_by_parts.
  destruct (outcome (sidebar s)) as [k| |e] eqn:Hk;
    [destruct (outcome (load s)) as [df| |e] eqn:Hl|..];
    cbn [trace outcome fst snd]; rewrite ?in_app_iff; intros H.
  - destruct H as [H | [H | [H | [H | [H | H]]]]]; auto.
    all: right; right; right; exists k, df; auto.
  - tauto.
  - tauto.
  - tauto.
  - tauto.
Qed.

Ltac absurd_in H :=
  simpl in H; repeat (destruct H as [H | H]; try discriminate);
  try contradiction.

Lemma load_shows_messages_only (s : session) (ev : event) :
  In ev (trace (load s)) ->
  match ev with
  | FileUploader _ | Success _ | Info _ | Error _ => True
  | _ => False
  end.
Proof.
  unfold load.
  destruct (upload s) as [[d|e]|]; simpl.
  - intros [<- | [<- | []]]; exact I.
  - intros [<- | []]; exact I.
  - destruct (sample s) as [d|e]; simpl; [|destruct (file_not_found e)];
      simpl; intros H;
      repeat (destruct H as [<- | H]; [exact I|]); contradiction.
Qed.

Lemma preview_draws_no_input (df : Pandas.DataFrame) (ev : event) :
  In ev (trace (data_preview df)) ->
  match ev with
  | Expander _ | Subheader _ | Write _ | ShowTable _ | ShowFrame _
  | Columns _ | Metric _ _ | Error _ => True
  | _ => False
  end.
Proof.
  destruct (Pandas.pivot df "Account" "Month" "Plan") as [p|e] eqn:Hp.
  - destruct (Pandas.pivot df "Account" "Month" "Actuals") as [a|e] eqn:Ha.
    + destruct (preview_both_ok df p a Hp Ha)
        as (p' & a' & acc & _ & _ & _ & _ & _ & _ & _ & Hb).
      unfold data_preview. rewrite Hb. simpl. intros H.
      repeat (destruct H as [<- | H]; [exact I|]). contradiction.
    + assert (outcome (preview_body df) = Raised e) as Ho
          by now rewrite (preview_actual_failed df p e Hp Ha).
      rewrite (data_preview_failed df e Ho). simpl. intros H.
      repeat (destruct H as [<- | H]; [exact I|]). contradiction.
  - assert (outcome (preview_body df) = Raised e) as Ho
        by now rewrite (preview_plan_failed df e Hp).
    rewrite (data_preview_failed df e Ho). simpl. intros H.
    repeat (destruct H as [<- | H]; [exact I|]). contradiction.
Qed.

(** The events of the chat section, whichever branch is taken. *)
Lemma chat_event_inv (s : session) (api_key : string) (df : Pandas.DataFrame)
    (context question : string) (ev : event) :
  In ev (trace (chat s api_key df context question)) ->
  (truthy api_key = false /\ truthy question = true /\
   ev = Error "Please enter your API Key in the sidebar.") \/
  (truthy api_key = true /\ truthy question = true /\
   (ev = LLMCreated (Agent.mkLlm "gemini-pro" api_key 0) \/
    ev = AgentCreated
           (Agent.mkAgent (Agent.mkLlm "gemini-pro" api_key 0) df
              agent_kwargs) \/
    ev = Spinner "Analyzing..." \/
    ev = AgentInvoked (final_prompt context question) \/
    (exists te, ev = Tool te) \/
    ev = closing_event
           (Agent.ending (plan_of s df (final_prompt context question))))).
Proof.
  destruct (truthy question) eqn:Hq.
  - destruct (truthy api_key) eqn:Hk.
    + rewrite (chat_asked_closing s _ _ _ _ Hk Hq). cbn [trace fst].
      intros H. right. repeat split.
      destruct H as [<- | [<- | [<- | [<- | H]]]]; auto.
      apply in_app_iff in H as [H | [<- | []]]; auto 10.
      apply in_map_iff in H as [te [<- _]]. eauto 10.
    + rewrite (chat_keyless s _ _ _ _ Hk Hq). simpl.
      intros [<- | []]. auto.
  - rewrite (chat_silent s _ _ _ _ Hq). contradiction.
Qed.

(** Every agent of a run is built over the loaded frame, with the key the
    sidebar settled on. *)
Lemma agent_created_inv (s : session) (a : Agent.agent) :
  In (AgentCreated a) (trace (app s)) ->
  exists api_key df,
    outcome (sidebar s) = Done api_key /\ outcome (load s) = Done df /\
    truthy api_key = true /\ truthy (typed_question s) = true /\
    a = Agent.mkAgent (Agent.mkLlm "gemini-pro" api_key 0) df agent_kwargs.
Proof.
  intros H. apply app_event_origin in H as [H | [H | [H | H]]].
  - absurd_in H.
  - now apply (agent_free_not_in (sidebar s) _ (sidebar_agent_free s)) in H.
  - now apply (agent_free_not_in (load s) _ (load_agent_free s)) in H.
  - destruct H as (k & df & Hk & Hl & [H | [H | H]]).
    + now apply (agent_free_not_in (data_preview df) _
                   (data_preview_agent_free df)) in H.
    + absurd_in H.
    + exists k, df. apply chat_event_inv in H
        as [(_ & _ & H) | (Hkey & Hq & H)]; [discriminate|].
      repeat split; try assumption.
      destruct H as [H | [H | [H | [H | [[te H] | H]]]]]; try discriminate.
      * now injection H.
      * exfalso. destruct (Agent.ending _) as [[items|text]|e];
          simpl in H; try discriminate.
        destruct (dict_get "output" items); discriminate.
Qed.

(** ** More on the key *)

(** X1: a key found in the secrets store decides alone.  The password box
    is not drawn, whatever is typed there changes nothing of the run, and
    an agent, if one is built, gets the stored key. *)
Theorem stored_key_overrides_typed (s : session) (k typed : string) :
  secrets_key s = Ok k ->
  app (with_typed_key typed s) = app s /\
  ~ In (TextInput "Enter Google Gemini API Key") (trace (app s)) /\
  (forall a, In (AgentCreated a) (trace (app s)) ->
             Agent.google_api_key (Agent.agent_llm a) = k).
Proof.
  intros Hs.
  pose proof (sidebar_stored s k Hs) as Hside.
  split; [|split].
  - rewrite (app_by_parts (with_typed_key typed s)), (app_by_parts s).
    rewrite Hside, (sidebar_stored (with_typed_key typed s) k Hs).
    reflexivity.
  - intros H. apply app_event_origin in H as [H | [H | [H | H]]].
    + absurd_in H.
    + rewrite Hside in H. absurd_in H.
    + now apply load_shows_messages_only in H.
    + destruct H as (k' & df & _ & _ & [H | [H | H]]).
      * now apply preview_draws_no_input in H.
      * absurd_in H.
      * apply chat_event_inv in H as [(_ & _ & H) | (_ & _ & H)];
          [discriminate|].
        destruct H as [H | [H | [H | [H | [[te H] | H]]]]];
          try discriminate.
        destruct (Agent.ending _) as [[items|text]|e];
          simpl in H; try discriminate.
        destruct (dict_get "output" items); discriminate.
  - intros a H. apply agent_created_inv in H
      as (k' & df & Hk & _ & _ & _ & ->).
    rewrite Hside in Hk. now injection Hk as <-.
Qed.

Lemma stored_key_overrides_typed_witness :
  secrets_key Cases.two_keys = Ok "stored" /\
  app (with_typed_key "another" Cases.two_keys) = app Cases.two_keys /\
  In (AgentCreated
        (Agent.mkAgent (Agent.mkLlm "gemini-pro" "stored" 0) Samples.ledger
           agent_kwargs))
     (trace (app Cases.two_keys)).
Proof.
  split; [reflexivity|].
  destruct (stored_key_overrides_typed Cases.two_keys "stored" "another"
              eq_refl) as (Hsame & _ & _).
  split; [exact Hsame|]. vm_compute. tauto.
Defined.

(** X2: an empty string in the secrets store counts as found.  The sidebar
    reports the key as loaded and offers no box to type one, and every
    question is then turned down for want of a key, whatever was typed. *)
Theorem blank_stored_key_locks_questions (s : session)
    (df : Pandas.DataFrame) :
  secrets_key s = Ok "" ->
  outcome (load s) = Done df ->
  truthy (typed_question s) = true ->
  trace (sidebar s) =
    [Sidebar; Header "Configuration";
     Success "✅ API Key loaded from secrets"] /\
  app s =
    ((trace (render s) ++
      [Error "Please enter your API Key in the sidebar."])%list,
     Done tt) /\
  agent_free (app s).
Proof.
  intros Hs Hl Hq.
  pose proof (sidebar_stored s "" Hs) as Hside.
  assert (outcome (sidebar s) = Done "") as Hk by now rewrite Hside.
  pose proof (render_eq s "" df Hk Hl) as Hr.
  assert (outcome (render s) =
            Done ("", df, entered_context s, typed_question s)) as Hro
      by now rewrite Hr.
  assert (app s =
            ((trace (render s) ++
              [Error "Please enter your API Key in the sidebar."])%list,
             Done tt)) as Happ.
  { rewrite (app_eq s _ _ _ _ Hro).
    now rewrite (chat_keyless s "" df _ _ eq_refl Hq). }
  split; [now rewrite Hside|]. split; [exact Happ|].
  unfold agent_free. rewrite Happ. cbn [trace fst].
  apply Forall_app. split; [apply render_agent_free | now repeat constructor].
Qed.

Lemma blank_stored_key_locks_questions_witness :
  secrets_key Cases.blank_secret = Ok "" /\
  outcome (load Cases.blank_secret) = Done Samples.ledger /\
  truthy (typed_question Cases.blank_secret) = true /\
  typed_key Cases.blank_secret = "typed" /\
  last (trace (app Cases.blank_secret)) Sidebar
    = Error "Please enter your API Key in the sidebar.".
Proof.
  split; [reflexivity|]. split; [reflexivity|]. split; [reflexivity|].
  split; [reflexivity|].
  destruct (blank_stored_key_locks_questions Cases.blank_secret
              Samples.ledger eq_refl eq_refl eq_refl) as (_ & Happ & _).
  rewrite Happ. reflexivity.
Defined.

(** ** More on the data source *)

(** X3: once a file is uploaded the sample file plays no part: whether
    [sample_data.csv] exists, and what is in it, changes nothing of the
    run. *)
Theorem upload_ignores_sample (s : session)
    (uploaded : pyresult Pandas.DataFrame)
    (other : pyresult Pandas.DataFrame) :
  upload s = Some uploaded ->
  app (with_sample other s) = app s.
Proof.
  intros Hu.
  assert (load (with_sample other s) = load s) as Hload
      by (unfold load; cbn [upload sample with_sample]; now rewrite Hu).
  rewrite (app_by_parts (with_sample other s)), (app_by_parts s).
  rewrite Hload.
  change (sidebar (with_sample other s)) with (sidebar s).
  destruct (outcome (sidebar s)) as [k| |e]; [|reflexivity..].
  destruct (outcome (load s)) as [df| |e]; [|reflexivity..].
  unfold default_context. cbn [upload with_sample]. reflexivity.
Qed.

Lemma upload_ignores_sample_witness :
  upload Cases.upload_only = Some (Ok Samples.ledger) /\
  sample Cases.upload_only = Samples.no_sample /\
  app (with_sample (Ok Samples.plan_only) Cases.upload_only)
    = app Cases.upload_only /\
  outcome (app Cases.upload_only) = Done tt.
Proof.
  split; [reflexivity|]. split; [reflexivity|]. split; [|reflexivity].
  apply (upload_ignores_sample Cases.upload_only (Ok Samples.ledger)).
  reflexivity.
Defined.

(** X4: an upload that cannot be read is not replaced by the sample data.
    The exception of [pd.read_csv] is not caught: the run ends with it right
    after the uploader, before any preview, context box or question box, and
    without any agent. *)
Theorem unreadable_upload_ends_run (s : session) (api_key : string)
    (e : exn) :
  upload s = Some (Exc e) ->
  outcome (sidebar s) = Done api_key ->
  app s =
    ((trace page_head ++ trace (sidebar s) ++
      [FileUploader "Upload your CSV file"])%list,
     Raised e) /\
  agent_free (app s).
Proof.
  intros Hu Hk.
  assert (load s = ([FileUploader "Upload your CSV file"], Raised e)) as Hl
      by (unfold load; now rewrite Hu).
  assert (app s =
            ((trace page_head ++ trace (sidebar s) ++
              [FileUploader "Upload your CSV file"])%list,
             Raised e)) as Happ
      by (rewrite app_by_parts, Hk, Hl; reflexivity).
  split; [exact Happ|].
  unfold agent_free. rewrite Happ. cbn [trace fst].
  apply Forall_app. split; [repeat constructor|].
  apply Forall_app. split; [apply sidebar_agent_free | repeat constructor].
Qed.

Lemma unreadable_upload_ends_run_witness :
  upload Cases.broken_upload = Some (Exc Cases.parser_error) /\
  outcome (sidebar Cases.broken_upload) = Done "key" /\
  sample Cases.broken_upload = Ok Samples.ledger /\
  outcome (app Cases.broken_upload) = Raised Cases.parser_error /\
  last (trace (app Cases.broken_upload)) Sidebar
    = FileUploader "Upload your CSV file".
Proof.
  split; [reflexivity|]. split; [reflexivity|]. split; [reflexivity|].
  destruct (unreadable_upload_ends_run Cases.broken_upload "key"
              Cases.parser_error eq_refl eq_refl) as [Happ _].
  rewrite Happ. split; reflexivity.
Defined.

(** X5: how a run ends depends on the secrets store and on reading the
    data, and on nothing else.  It ends with an exception only if the
    secrets store raises something other than a missing key or file, or
    [pd.read_csv] raises (for the sample file: something other than file not
    found); it stops only if there is no upload and no sample file; in every
    other case it runs to its end, whatever the pivot view and the agent
    do. *)
Theorem run_outcome_by_inputs (s : session) :
  let after_sidebar :=
    match upload s with
    | Some (Ok _) => Done tt
    | Some (Exc e) => Raised e
    | None =>
        match sample s with
        | Ok _ => Done tt
        | Exc e => if file_not_found e then Stopped else Raised e
        end
    end in
  outcome (app s) =
    match secrets_key s with
    | Ok _ => after_sidebar
    | Exc e => if secrets_missing e then after_sidebar else Raised e
    end.
Proof.
  intros after_sidebar. subst after_sidebar.
  rewrite app_by_parts, sidebar_outcome, load_outcome.
  destruct (secrets_key s) as [k|e]; [|destruct (secrets_missing e)];
    try reflexivity;
    (destruct (upload s) as [[df|e']|];
     [reflexivity | reflexivity |
      destruct (sample s) as [df|e'];
      [reflexivity | now destruct (file_not_found e')]]).
Qed.

(** ** More on questions *)

(** X6: a run builds at most one language model and one agent and invokes
    it at most once, and does so exactly when the page was drawn and both
    the question and the key are non-empty.  The agent is built over the
    loaded frame, with the settled key and the fixed arguments, and is
    invoked with the prompt made of the entered context and the question. *)
Theorem agent_built_at_most_once (s : session) :
  filter is_setup (trace (app s)) =
    match outcome (sidebar s), outcome (load s) with
    | Done api_key, Done df =>
        if truthy (typed_question s) && truthy api_key then
          [LLMCreated (Agent.mkLlm "gemini-pro" api_key 0);
           AgentCreated
             (Agent.mkAgent (Agent.mkLlm "gemini-pro" api_key 0) df
                agent_kwargs);
           AgentInvoked
             (final_prompt (entered_context s) (typed_question s))]
        else []
    | _, _ => []
    end.
Proof.
  rewrite app_by_parts.
  pose proof (agent_free_no_setup _ (sidebar_agent_free s)) as Hside.
  pose proof (agent_free_no_setup _ (load_agent_free s)) as Hload.
  destruct (outcome (sidebar s)) as [k| |e];
    [destruct (outcome (load s)) as [df| |e]|..];
    cbn [trace outcome fst snd]; rewrite !filter_app, ?Hside, ?Hload;
    try reflexivity.
  rewrite (agent_free_no_setup _ (data_preview_agent_free df)).
  cbn [filter is_setup List.app page_head].
  destruct (truthy (typed_question s)) eqn:Hq.
  - destruct (truthy k) eqn:Hk.
    + rewrite (chat_asked_closing s _ _ _ _ Hk Hq).
      cbn [trace fst filter is_setup andb].
      rewrite filter_app, setup_of_tools. cbn [filter List.app].
      now rewrite (closing_event_plain _).
    + now rewrite (chat_keyless s _ _ _ _ Hk Hq).
  - now rewrite (chat_silent s _ _ _ _ Hq).
Qed.

(** X7: a failure of the agent stays with the question.  When the
    invocation raises, the run still ends normally; the page closes with
    the message built from the exception, after the effects of the queries
    that ran before the failure, and shows no answer. *)
Theorem agent_failure_is_reported (s : session) (api_key : string)
    (df : Pandas.DataFrame) (context question : string) (e : exn) :
  outcome (render s) = Done (api_key, df, context, question) ->
  truthy api_key = true ->
  truthy question = true ->
  Agent.ending (plan_of s df (final_prompt context question)) = Exc e ->
  app s =
    ((trace (render s) ++
      [LLMCreated (Agent.mkLlm "gemini-pro" api_key 0);
       AgentCreated
         (Agent.mkAgent (Agent.mkLlm "gemini-pro" api_key 0) df agent_kwargs);
       Spinner "Analyzing...";
       AgentInvoked (final_prompt context question)] ++
      map Tool
        (flat_map Agent.python_repl_ast
           (Agent.proposals (plan_of s df (final_prompt context question)))) ++
      [Error ("An error occurred: " ++ exn_str e)])%list,
     Done tt) /\
  (forall text, ~ In (Write text) (trace (chat s api_key df context question)))
  /\
  (forall r, ~ In (WriteObject r)
               (trace (chat s api_key df context question))).
Proof.
  intros Hr Hk Hq He.
  pose proof (chat_asked_closing s _ df context question Hk Hq) as Hchat.
  rewrite He in Hchat. cbn [closing_event] in Hchat.
  split; [|split].
  - rewrite (app_eq s _ _ _ _ Hr), Hchat. reflexivity.
  - intros text H. rewrite Hchat in H. cbn [trace fst] in H.
    destruct H as [H | [H | [H | [H | H]]]]; try discriminate.
    apply in_app_iff in H as [H | [H | []]]; [|discriminate].
    apply in_map_iff in H as [x [E _]]. discriminate.
  - intros r H. rewrite Hchat in H. cbn [trace fst] in H.
    destruct H as [H | [H | [H | [H | H]]]]; try discriminate.
    apply in_app_iff in H as [H | [H | []]]; [|discriminate].
    apply in_map_iff in H as [x [E _]]. discriminate.
Qed.

Lemma agent_failure_is_reported_witness :
  outcome (render Cases.failing)
    = Done ("key", Samples.ledger, sample_context, Samples.jan_question) /\
  truthy "key" = true /\
  truthy Samples.jan_question = true /\
  Agent.ending
    (plan_of Cases.failing Samples.ledger
       (final_prompt sample_context Samples.jan_question))
    = Exc Cases.quota_error /\
  outcome (app Cases.failing) = Done tt /\
  last (trace (app Cases.failing)) Sidebar
    = Error "An error occurred: 429 Quota exceeded" /\
  In (Tool (Agent.ToolEffect (Agent.FrameRead "df.head()")))
     (trace (app Cases.failing)).
Proof.
  split; [reflexivity|]. split; [reflexivity|]. split; [reflexivity|].
  split; [reflexivity|].
  destruct (agent_failure_is_reported Cases.failing "key" Samples.ledger
              sample_context Samples.jan_question Cases.quota_error
              eq_refl eq_refl eq_refl eq_refl) as (Happ & _ & _).
  rewrite Happ. split; [reflexivity|]. split; [reflexivity|].
  vm_compute. tauto.
Defined.

(** X9: the built-in narrative goes with the sample data only.  With an
    uploaded file the context box starts empty, and a box left untouched
    sends the agent an empty context; without an upload it starts with the
    sample narrative; an edited box always sends what was entered. *)
Theorem context_sent_by_source (s : session) (p : string) :
  In (AgentInvoked p) (trace (app s)) ->
  In (TextArea "Variance Context"
        (match upload s with Some _ => "" | None => sample_context end))
     (trace (app s)) /\
  p = final_prompt
        (match typed_context s, upload s with
         | Some edited, _ => edited
         | None, Some _ => ""
         | None, None => sample_context
         end)
        (typed_question s).
Proof.
  intros H.
  assert (In (AgentInvoked p) (filter is_setup (trace (app s)))) as Hf
      by (apply filter_In; split; [exact H | reflexivity]).
  rewrite app_by_parts.
  rewrite app_by_parts in Hf.
  destruct (outcome (sidebar s)) as [k| |e];
    [destruct (outcome (load s)) as [df| |e]|..];
    cbn [trace outcome fst snd] in *.
  - split.
    + rewrite !in_app_iff. do 4 right. left. left. reflexivity.
    + rewrite !filter_app in Hf.
      rewrite (agent_free_no_setup _ (sidebar_agent_free s)),
        (agent_free_no_setup _ (load_agent_free s)),
        (agent_free_no_setup _ (data_preview_agent_free df)) in Hf.
      cbn [filter is_setup List.app page_head trace fst] in Hf.
      apply filter_In in Hf as [Hf _].
      apply chat_event_inv in Hf as [(_ & _ & Hf) | (_ & _ & Hf)];
        [discriminate|].
      destruct Hf as [Hf | [Hf | [Hf | [Hf | [[te Hf] | Hf]]]]];
        try discriminate.
      * injection Hf as ->. unfold entered_context, default_context.
        now destruct (typed_context s), (upload s).
      * exfalso. destruct (Agent.ending _) as [[items|text]|e];
          simpl in Hf; try discriminate.
        destruct (dict_get "output" items); discriminate.
  - exfalso. rewrite !filter_app in Hf.
    rewrite (agent_free_no_setup _ (sidebar_agent_free s)),
      (agent_free_no_setup _ (load_agent_free s)) in Hf. absurd_in Hf.
  - exfalso. rewrite !filter_app in Hf.
    rewrite (agent_free_no_setup _ (sidebar_agent_free s)),
      (agent_free_no_setup _ (load_agent_free s)) in Hf. absurd_in Hf.
  - exfalso. rewrite !filter_app in Hf.
    rewrite (agent_free_no_setup _ (sidebar_agent_free s)) in Hf.
    absurd_in Hf.
  - exfalso. rewrite !filter_app in Hf.
    rewrite (agent_free_no_setup _ (sidebar_agent_free s)) in Hf.
    absurd_in Hf.
Qed.

Lemma context_sent_by_source_witness :
  In (AgentInvoked (final_prompt "" Samples.jan_question))
     (trace (app Cases.upload_only)) /\
  In (TextArea "Variance Context" "") (trace (app Cases.upload_only)).
Proof.
  assert (In (AgentInvoked (final_prompt "" Samples.jan_question))
             (trace (app Cases.upload_only))) as Hin
      by (vm_compute; tauto).
  split; [exact Hin|].
  exact (proj1 (context_sent_by_source Cases.upload_only _ Hin)).
Defined.

(** ** More on the pivot view *)

Section Reshape.
Import Pandas.

Lemma length_insert_sorted (c : cell) (l : list cell) :
  List.length (insert_sorted c l) = S (List.length l).
Proof.
  induction l as [|d l IH]; simpl; [reflexivity|].
  destruct (cell_leb c d); simpl; [reflexivity | now rewrite IH].
Qed.

Lemma length_sort_labels (l : list cell) :
  List.length (sort_labels l) = List.length l.
Proof.
  induction l as [|c l IH]; simpl; [reflexivity|].
  now rewrite length_insert_sorted, IH.
Qed.

(** A successful [pivot], in full. *)
Lemma pivot_ok_full (df : DataFrame) (i c v : string) (t : Table) :
  pivot df i c v = Ok t ->
  exists idx cols vals,
    getitem df i = Ok idx /\ getitem df c = Ok cols /\
    getitem df v = Ok vals /\
    has_duplicates (combine idx cols) = false /\
    t = mkTable (sort_labels (unique idx)) (sort_labels (unique cols))
          (map (fun r =>
                  map (fun k => lookup_key (r, k)
                                  (combine (combine idx cols) vals))
                      (sort_labels (unique cols)))
               (sort_labels (unique idx))).
Proof.
  unfold pivot.
  destruct (getitem df i) as [idx|]; simpl; [|discriminate].
  destruct (getitem df c) as [cols|]; simpl; [|discriminate].
  destruct (getitem df v) as [vals|]; simpl; [|discriminate].
  destruct (has_duplicates (combine idx cols)) eqn:E; [discriminate|].
  intros H. injection H as <-. exists idx, cols, vals. auto.
Qed.

Lemma select_inv (t t' : Table) (labels : list cell) :
  select t labels = Ok t' ->
  exists ps,
    positions labels (tcolumns t) = Ok ps /\
    t' = mkTable (index t) labels
           (map (fun r => map (fun p => nth p r CNaN) ps) (body t)).
Proof.
  unfold select. destruct (positions labels (tcolumns t)) as [ps|];
    simpl; [|discriminate].
  intros H. injection H as <-. eauto.
Qed.

Lemma positions_length (labels have : list cell) (ps : list nat) :
  positions labels have = Ok ps -> List.length ps = List.length labels.
Proof.
  revert ps. induction labels as [|l labels IH]; simpl; intros ps.
  - now intros [= <-].
  - destruct (cell_position l have) as [p|]; [|discriminate].
    destruct (positions labels have) as [qs|]; simpl; [|discriminate].
    intros [= <-]. simpl. now rewrite (IH qs).
Qed.

Lemma positions_nth (labels have : list cell) (ps : list nat) :
  positions labels have = Ok ps ->
  forall c l, nth_error labels c = Some l ->
              exists p, nth_error ps c = Some p /\
                        cell_position l have = Some p.
Proof.
  revert ps. induction labels as [|x labels IH]; simpl; intros ps H c l Hc.
  - destruct c; discriminate.
  - destruct (cell_position x have) as [p|] eqn:Hp; [|discriminate].
    destruct (positions labels have) as [qs|]; simpl in H; [|discriminate].
    injection H as <-. destruct c as [|c]; simpl in *.
    + injection Hc as <-. eauto.
    + now apply (IH qs).
Qed.

Lemma cell_position_nth (c : cell) (l : list cell) (p : nat) :
  cell_position c l = Some p -> nth_error l p = Some c.
Proof.
  revert p. induction l as [|d l IH]; simpl; intros p; [discriminate|].
  destruct (cell_eqb c d) eqn:E.
  - intros [= <-]. apply cell_eqb_eq in E. now subst.
  - destruct (cell_position c l) as [q|]; simpl; [|discriminate].
    intros [= <-]. simpl. now apply IH.
Qed.

Lemma cell_position_In (c : cell) (l : list cell) :
  In c l -> exists p, cell_position c l = Some p.
Proof. intros H. apply cell_position_mem. now apply mem_In. Qed.

(** The first row with a given pair is the only one when no pair
    repeats, so looking the pair up finds that row's value. *)
Lemma lookup_key_nth (keys : list (cell * cell)) (vals : list cell) :
  has_duplicates keys = false ->
  forall (i : nat) (k : cell * cell) (v : cell),
    nth_error keys i = Some k -> nth_error vals i = Some v ->
    lookup_key k (combine keys vals) = v.
Proof.
  revert vals. induction keys as [|k0 keys IH]; intros vals Hd i k v Hk Hv.
  - destruct i; discriminate.
  - simpl in Hd. apply orb_false_iff in Hd as [Hfirst Hrest].
    destruct vals as [|v0 vals]; [destruct i; discriminate|].
    destruct i as [|i]; simpl in Hk, Hv.
    + injection Hk as ->. injection Hv as ->. simpl.
      now rewrite (proj2 (key_eqb_eq k k) eq_refl).
    + simpl. destruct (key_eqb k k0) eqn:E.
      * exfalso. apply key_eqb_eq in E. subst k0.
        assert (existsb (key_eqb k) keys = true) as Hin; [|congruence].
        apply existsb_exists. exists k.
        split; [now apply nth_error_In with i | now apply key_eqb_eq].
      * now apply (IH vals Hrest i).
Qed.

Lemma lookup_key_absent (k : cell * cell) (keys : list (cell * cell))
    (vals : list cell) :
  ~ In k keys -> lookup_key k (combine keys vals) = CNaN.
Proof.
  revert vals. induction keys as [|k0 keys IH]; intros vals Hn;
    [reflexivity|].
  destruct vals as [|v0 vals]; [reflexivity|]. simpl.
  destruct (key_eqb k k0) eqn:E.
  - exfalso. apply key_eqb_eq in E. subst. apply Hn. now left.
  - apply IH. intros H. apply Hn. now right.
Qed.

(** The cell of a reshaped and reordered table, by its labels. *)
Lemma selected_cell (df : DataFrame) (v : string) (t t' : Table)
    (labels : list cell) (idx cols vals : list cell) (a m : cell) :
  pivot df "Account" "Month" v = Ok t ->
  select t labels = Ok t' ->
  getitem df "Account" = Ok idx -> getitem df "Month" = Ok cols ->
  getitem df v = Ok vals ->
  In a idx -> In m labels ->
  exists r c row,
    cell_position a (index t') = Some r /\
    cell_position m (tcolumns t') = Some c /\
    nth_error (body t') r = Some row /\
    nth_error row c
      = Some (lookup_key (a, m) (combine (combine idx cols) vals)).
Proof.
  intros Hp Hs Hi Hc Hv Ha Hm.
  apply pivot_ok_full in Hp
    as (idx' & cols' & vals' & Hi' & Hc' & Hv' & _ & ->).
  rewrite Hi in Hi'. injection Hi' as <-.
  rewrite Hc in Hc'. injection Hc' as <-.
  rewrite Hv in Hv'. injection Hv' as <-.
  apply select_inv in Hs as (ps & Hps & ->). cbn [index tcolumns body] in *.
  destruct (cell_position_In a (sort_labels (unique idx))) as [r Hr];
    [now apply In_sort_labels, In_unique|].
  destruct (cell_position_In m labels Hm) as [c Hcpos].
  pose proof (cell_position_nth _ _ _ Hr) as Hrn.
  pose proof (cell_position_nth _ _ _ Hcpos) as Hcn.
  destruct (positions_nth _ _ _ Hps c m Hcn) as (p & Hpc & Hpm).
  pose proof (cell_position_nth _ _ _ Hpm) as Hpn.
  eexists r, c, _. split; [exact Hr|]. split; [exact Hcpos|]. split.
  - rewrite !nth_error_map, Hrn. reflexivity.
  - rewrite nth_error_map, Hpc. cbn [option_map]. f_equal.
    rewrite (nth_error_nth _ p CNaN
               (x := lookup_key (a, m) (combine (combine idx cols) vals)));
      [reflexivity|].
    now rewrite nth_error_map, Hpn.
Qed.

(** Choosing columns of a pivot moves each column with its cells. *)
Lemma select_moves_columns (df : DataFrame) (i c v : string) (t t' : Table)
    (labels : list cell) :
  pivot df i c v = Ok t ->
  select t labels = Ok t' ->
  columns_moved t t'.
Proof.
  intros Hp Hs.
  apply pivot_ok_full in Hp as (idx & cols & vals & _ & _ & _ & _ & ->).
  apply select_inv in Hs as (ps & Hps & ->).
  unfold columns_moved. cbn [index tcolumns body] in *.
  split; [reflexivity|]. split; [now rewrite !length_map|].
  intros r shown_row Hr.
  rewrite nth_error_map in Hr.
  destruct (nth_error
              (map (fun a =>
                      map (fun k => lookup_key (a, k)
                                      (combine (combine idx cols) vals))
                          (sort_labels (unique cols)))
                   (sort_labels (unique idx))) r) as [row|] eqn:Hrow;
    [|discriminate].
  cbn [option_map] in Hr. injection Hr as <-.
  split; [rewrite length_map; now apply positions_length in Hps|].
  exists row. split; [reflexivity|].
  intros k label Hk.
  destruct (positions_nth _ _ _ Hps k label Hk) as (p & Hpk & Hpos).
  pose proof (cell_position_nth _ _ _ Hpos) as Hlab.
  assert (List.length row = List.length (sort_labels (unique cols))) as Hlen.
  { rewrite nth_error_map in Hrow.
    destruct (nth_error (sort_labels (unique idx)) r); [|discriminate].
    cbn [option_map] in Hrow. injection Hrow as <-.
    now rewrite length_map. }
  assert (p < List.length row) as Hlt.
  { rewrite Hlen. apply nth_error_Some. congruence. }
  exists p, (nth p row CNaN). split; [exact Hpos|]. split.
  - now apply nth_error_nth'.
  - now rewrite nth_error_map, Hpk.
Qed.

End Reshape.

Lemma nth_error_combine {A B} (l : list A) (l' : list B) (i : nat)
    (x : A) (y : B) :
  nth_error l i = Some x -> nth_error l' i = Some y ->
  nth_error (combine l l') i = Some (x, y).
Proof.
  revert l' i. induction l as [|a l IH]; intros l' i Hx Hy.
  - destruct i; discriminate.
  - destruct l' as [|b l']; [destruct i; discriminate|].
    destruct i as [|i]; simpl in *.
    + now injection Hx as ->; injection Hy as ->.
    + now apply IH.
Qed.

Lemma account_period_eq (df : Pandas.DataFrame)
    (accounts months : list Pandas.cell) :
  Pandas.getitem df "Account" = Ok accounts ->
  Pandas.getitem df "Month" = Ok months ->
  account_period df = combine accounts months.
Proof. unfold account_period. now intros -> ->. Qed.

Lemma pivot_succeeds (df : Pandas.DataFrame) (v : string)
    (accounts months vals : list Pandas.cell) :
  Pandas.getitem df "Account" = Ok accounts ->
  Pandas.getitem df "Month" = Ok months ->
  Pandas.getitem df v = Ok vals ->
  Pandas.has_duplicates (account_period df) = false ->
  exists t, Pandas.pivot df "Account" "Month" v = Ok t.
Proof.
  intros Ha Hm Hv Hd. rewrite (account_period_eq df _ _ Ha Hm) in Hd.
  unfold Pandas.pivot. rewrite Ha, Hm, Hv. simpl. rewrite Hd. eauto.
Qed.

Lemma preview_tables_shown (df : Pandas.DataFrame)
    (plan' actual' : Pandas.Table) (rest : list event) :
  preview_body df =
    ((Write "### Plan" :: ShowTable plan' ::
      Write "### Actual" :: ShowTable actual' :: rest)%list, Done tt) ->
  tables_shown rest = [] ->
  tables_shown (trace (data_preview df)) = [plan'; actual'].
Proof.
  intros Hb Hrest. unfold data_preview. rewrite Hb. simpl.
  now rewrite Hrest.
Qed.

(** C6: when both pivots can be built, the preview shows exactly two
    tables.  The columns of each are the calendar order Jan..Dec restricted
    to the periods that occur in the data: a column is shown for a period if
    and only if it is a calendar period present in the data, so an absent
    period gets no column.  The tables shown are the pivots with their
    columns put in that order: the rows are those of the pivot, every row
    has one cell per column shown, and under each month stand the cells the
    pivot has under that month. *)
Theorem pivot_columns_follow_calendar (df : Pandas.DataFrame)
    (plan actual : Pandas.Table) :
  Pandas.pivot df "Account" "Month" "Plan" = Ok plan ->
  Pandas.pivot df "Account" "Month" "Actuals" = Ok actual ->
  exists plan' actual',
    (forall t, In (ShowTable t) (trace (data_preview df)) <->
               t = plan' \/ t = actual') /\
    tables_shown (trace (data_preview df)) = [plan'; actual'] /\
    Pandas.tcolumns plan' = calendar_columns df /\
    Pandas.tcolumns actual' = calendar_columns df /\
    Pandas.index plan' = Pandas.index plan /\
    Pandas.index actual' = Pandas.index actual /\
    (forall m, In (Pandas.CStr m) (calendar_columns df) <->
               In m month_order /\ In (Pandas.CStr m) (periods_present df)) /\
    columns_moved plan plan' /\
    columns_moved actual actual'.
Proof.
  intros Hp Ha.
  destruct (preview_both_ok df plan actual Hp Ha)
    as (p & a & acc & Hsp & Hsa & Hcp & Hca & Hip & Hia & _ & Hbody).
  exists p, a.
  split; [|split; [|split; [|split; [|split; [|split; [|split; [|split]]]]]]];
    try assumption.
  - intros t. unfold data_preview. rewrite Hbody. simpl. split.
    + intros H. repeat (destruct H as [H | H]; try discriminate);
        try (injection H as <-; auto). contradiction.
    + intros [-> | ->]; auto 10.
  - now apply (preview_tables_shown df p a _ Hbody).
  - intros m. split.
    + intros H. unfold calendar_columns in H.
      apply in_map_iff in H as [m' [E H]]. injection E as ->.
      apply filter_In in H as [Hm H]. split; [exact Hm | now apply mem_In].
    + intros [Hm Hin]. unfold calendar_columns. apply in_map.
      apply filter_In. split; [exact Hm | now apply mem_In].
  - exact (select_moves_columns df _ _ _ plan p _ Hp Hsp).
  - exact (select_moves_columns df _ _ _ actual a _ Ha Hsa).
Qed.

Lemma pivot_columns_follow_calendar_witness :
  Pandas.pivot Samples.ledger "Account" "Month" "Plan"
    = Ok Samples.ledger_plan /\
  Pandas.pivot Samples.ledger "Account" "Month" "Actuals"
    = Ok Samples.ledger_actual /\
  Pandas.tcolumns Samples.ledger_plan
    = [Pandas.CStr "Feb"; Pandas.CStr "Jan"] /\
  exists plan' actual',
    tables_shown (trace (data_preview Samples.ledger)) = [plan'; actual'] /\
    Pandas.tcolumns plan' = [Pandas.CStr "Jan"; Pandas.CStr "Feb"] /\
    Pandas.tcolumns actual' = [Pandas.CStr "Jan"; Pandas.CStr "Feb"] /\
    columns_moved Samples.ledger_plan plan' /\
    columns_moved Samples.ledger_actual actual' /\
    Pandas.body plan'
      = [[Pandas.CNum 40; Pandas.CNaN]; [Pandas.CNum 100; Pandas.CNum 100]] /\
    Pandas.body actual'
      = [[Pandas.CNum 41; Pandas.CNaN]; [Pandas.CNum 102; Pandas.CNum 95]].
Proof.
  split; [reflexivity|]. split; [reflexivity|]. split; [reflexivity|].
  destruct (pivot_columns_follow_calendar Samples.ledger
              Samples.ledger_plan Samples.ledger_actual eq_refl eq_refl)
    as (p & a & _ & Hshown & Hp & Ha & _ & _ & _ & Hmp & Hma).
  exists p, a.
  assert (p = Pandas.mkTable
                [Pandas.CStr "COGS"; Pandas.CStr "Revenue"]
                [Pandas.CStr "Jan"; Pandas.CStr "Feb"]
                [[Pandas.CNum 40; Pandas.CNaN];
                 [Pandas.CNum 100; Pandas.CNum 100]] /\
          a = Pandas.mkTable
                [Pandas.CStr "COGS"; Pandas.CStr "Revenue"]
                [Pandas.CStr "Jan"; Pandas.CStr "Feb"]
                [[Pandas.CNum 41; Pandas.CNaN];
                 [Pandas.CNum 102; Pandas.CNum 95]]) as [Ep Ea].
  { vm_compute in Hshown. injection Hshown as <- <-. split; reflexivity. }
  split; [exact Hshown|]. split; [exact Hp|]. split; [exact Ha|].
  split; [exact Hmp|]. split; [exact Hma|].
  rewrite Ep, Ea. split; reflexivity.
Defined.

(** X10: the pivot view is shown for exactly the frames that have the
    four columns and no (account, period) pair on two rows.  It shows
    either both tables or none: when it fails, for whichever table, the
    page has the error message and the raw rows and not a single table. *)
Theorem preview_shows_both_tables_or_none (df : Pandas.DataFrame) :
  (has_required_columns df = true /\
   Pandas.has_duplicates (account_period df) = false /\
   exists plan' actual',
     tables_shown (trace (data_preview df)) = [plan'; actual'] /\
     (forall msg, ~ In (Error msg) (trace (data_preview df))) /\
     (forall f, ~ In (ShowFrame f) (trace (data_preview df)))) \/
  ((has_required_columns df = false \/
    Pandas.has_duplicates (account_period df) = true) /\
   exists e,
     tables_shown (trace (data_preview df)) = [] /\
     data_preview df =
       ([Expander "Data Preview"; Subheader "Complete Dataset Overview";
         Error ("Error creating pivot table: " ++ exn_str e);
         Write "**Raw Data Preview (first 20 rows):**";
         ShowFrame (Pandas.head 20 df)],
        Done tt)).
Proof.
  assert (forall e, outcome (preview_body df) = Raised e ->
            exists e',
              tables_shown (trace (data_preview df)) = [] /\
              data_preview df =
                ([Expander "Data Preview";
                  Subheader "Complete Dataset Overview";
                  Error ("Error creating pivot table: " ++ exn_str e');
                  Write "**Raw Data Preview (first 20 rows):**";
                  ShowFrame (Pandas.head 20 df)],
                 Done tt)) as Hfail.
  { intros e He. exists e. rewrite (data_preview_failed df e He). auto. }
  destruct (Pandas.pivot df "Account" "Month" "Plan") as [plan|e] eqn:Hp.
  - pose proof (pivot_ok_full _ _ _ _ _ Hp)
      as (idx & cols & vals & Hi & Hc & Hv & Hd & _).
    rewrite <- (account_period_eq df idx cols Hi Hc) in Hd.
    destruct (Pandas.pivot df "Account" "Month" "Actuals")
      as [actual|e] eqn:Ha.
    + left.
      pose proof (pivot_ok_full _ _ _ _ _ Ha)
        as (_ & _ & vals' & _ & _ & Hv' & _ & _).
      split; [|split; [exact Hd|]].
      { unfold has_required_columns, required_columns. simpl.
        rewrite (proj2 (getitem_has_column df "Account")) by eauto.
        rewrite (proj2 (getitem_has_column df "Month")) by eauto.
        rewrite (proj2 (getitem_has_column df "Plan")) by eauto.
        rewrite (proj2 (getitem_has_column df "Actuals")) by eauto.
        reflexivity. }
      destruct (preview_both_ok df plan actual Hp Ha)
        as (p & a & acc & _ & _ & _ & _ & _ & _ & _ & Hb).
      exists p, a. split; [|split].
      * now apply (preview_tables_shown df p a _ Hb).
      * intros msg H. unfold data_preview in H. rewrite Hb in H.
        absurd_in H.
      * intros f H. unfold data_preview in H. rewrite Hb in H.
        absurd_in H.
    + right. split.
      * left. unfold has_required_columns, required_columns. simpl.
        assert (has_column df "Actuals" = false) as ->;
          [|now rewrite !andb_false_r].
        destruct (has_column df "Actuals") eqn:E; [|reflexivity].
        apply getitem_has_column in E as [vals' Hv'].
        destruct (pivot_succeeds df "Actuals" idx cols vals' Hi Hc Hv' Hd)
          as [t Ht]. congruence.
      * apply (Hfail e). now rewrite (preview_actual_failed df plan e Hp Ha).
  - right. split.
    + destruct (has_required_columns df) eqn:Hreq; [|now left].
      right. unfold has_required_columns, required_columns in Hreq.
      simpl in Hreq. rewrite !andb_true_iff in Hreq.
      destruct Hreq as (H1 & H2 & H3 & _).
      apply getitem_has_column in H1 as [idx Hi].
      apply getitem_has_column in H2 as [cols Hc].
      apply getitem_has_column in H3 as [vals Hv].
      destruct (Pandas.has_duplicates (account_period df)) eqn:Hd;
        [reflexivity|].
      destruct (pivot_succeeds df "Plan" idx cols vals Hi Hc Hv Hd)
        as [t Ht]. congruence.
    + apply (Hfail e). now rewrite (preview_plan_failed df e Hp).
Qed.

(** X11: the two tables shown line up.  They have the same row labels
    and the same column labels, each is a full grid (one row of cells per
    row label, one cell per column label), and the three counters under
    them are the number of data rows, the number of rows of the tables and
    the number of their columns, which is at most twelve. *)
Theorem shown_tables_line_up (df : Pandas.DataFrame)
    (plan actual : Pandas.Table) :
  Pandas.pivot df "Account" "Month" "Plan" = Ok plan ->
  Pandas.pivot df "Account" "Month" "Actuals" = Ok actual ->
  exists plan' actual',
    tables_shown (trace (data_preview df)) = [plan'; actual'] /\
    Pandas.index plan' = Pandas.index actual' /\
    Pandas.tcolumns plan' = Pandas.tcolumns actual' /\
    List.length (Pandas.body plan') = List.length (Pandas.index plan') /\
    List.length (Pandas.body actual') = List.length (Pandas.index actual') /\
    Forall (fun r => List.length r = List.length (Pandas.tcolumns plan'))
           (Pandas.body plan') /\
    Forall (fun r => List.length r = List.length (Pandas.tcolumns actual'))
           (Pandas.body actual') /\
    In (Metric "Total Rows" (List.length (Pandas.rows df)))
       (trace (data_preview df)) /\
    In (Metric "Account Types" (List.length (Pandas.index plan')))
       (trace (data_preview df)) /\
    In (Metric "Months" (List.length (Pandas.tcolumns plan')))
       (trace (data_preview df)) /\
    List.length (Pandas.tcolumns plan') <= 12.
Proof.
  intros Hp Ha.
  destruct (preview_both_ok df plan actual Hp Ha)
    as (p & a & acc & Hsp & Hsa & Hcp & Hca & Hip & Hia & Hacc & Hb).
  pose proof (pivot_ok_full _ _ _ _ _ Hp)
    as (idx & cols & vals & Hi & Hc & _ & _ & Eplan).
  pose proof (pivot_ok_full _ _ _ _ _ Ha)
    as (idx' & cols' & vals' & Hi' & Hc' & _ & _ & Eactual).
  rewrite Hi in Hi'. injection Hi' as <-.
  rewrite Hc in Hc'. injection Hc' as <-.
  rewrite Hi in Hacc. injection Hacc as <-.
  apply select_inv in Hsp as (ps & Hps & Ep).
  apply select_inv in Hsa as (qs & Hqs & Ea).
  pose proof (positions_length _ _ _ Hps) as Lps.
  pose proof (positions_length _ _ _ Hqs) as Lqs.
  assert (List.length (calendar_columns df) <= 12) as Hle.
  { unfold calendar_columns. rewrite length_map.
    etransitivity; [apply filter_length_le | reflexivity]. }
  exists p, a.
  split; [now apply (preview_tables_shown df p a _ Hb)|].
  split; [rewrite Hip, Hia, Eplan, Eactual; reflexivity|].
  split; [now rewrite Hcp, Hca|].
  split; [rewrite Ep, Eplan; cbn [Pandas.index Pandas.body];
          now rewrite !length_map|].
  split; [rewrite Ea, Eactual; cbn [Pandas.index Pandas.body];
          now rewrite !length_map|].
  split.
  { rewrite Ep. cbn [Pandas.body Pandas.tcolumns].
    apply Forall_forall. intros r Hr. apply in_map_iff in Hr as [x [<- _]].
    now rewrite length_map. }
  split.
  { rewrite Ea. cbn [Pandas.body Pandas.tcolumns].
    apply Forall_forall. intros r Hr. apply in_map_iff in Hr as [x [<- _]].
    now rewrite length_map. }
  assert (List.length (Pandas.index p)
            = List.length (Pandas.unique idx)) as Lidx
      by (rewrite Hip, Eplan; cbn [Pandas.index];
          apply length_sort_labels).
  rewrite Lidx, Hcp. unfold data_preview. rewrite Hb.
  cbn [trace fst bind emit try_except any_exception List.app].
  split; [|split; [|split; [|exact Hle]]]; simpl; auto 20.
Qed.

Lemma shown_tables_line_up_witness :
  Pandas.pivot Samples.ledger "Account" "Month" "Plan"
    = Ok Samples.ledger_plan /\
  Pandas.pivot Samples.ledger "Account" "Month" "Actuals"
    = Ok Samples.ledger_actual /\
  exists plan' actual',
    tables_shown (trace (data_preview Samples.ledger)) = [plan'; actual'] /\
    Pandas.index plan' = Pandas.index actual' /\
    In (Metric "Account Types" (List.length (Pandas.index plan')))
       (trace (data_preview Samples.ledger)).
Proof.
  split; [reflexivity|]. split; [reflexivity|].
  destruct (shown_tables_line_up Samples.ledger Samples.ledger_plan
              Samples.ledger_actual eq_refl eq_refl)
    as (p & a & H1 & H2 & _ & _ & _ & _ & _ & _ & H3 & _).
  exists p, a. auto.
Defined.

(** X12: the tables show the data.  For a frame without a repeated pair,
    take any row whose period is a calendar month: in the plan table the
    cell in the row of its account and the column of its month is the
    row's plan value, and the cell at the same place of the actuals table
    is its actual value. *)
Theorem shown_cell_is_row_value (df : Pandas.DataFrame)
    (accounts months plans actuals : list Pandas.cell) (i : nat)
    (a : Pandas.cell) (m : string) (p q : Pandas.cell) :
  Pandas.getitem df "Account" = Ok accounts ->
  Pandas.getitem df "Month" = Ok months ->
  Pandas.getitem df "Plan" = Ok plans ->
  Pandas.getitem df "Actuals" = Ok actuals ->
  Pandas.has_duplicates (account_period df) = false ->
  nth_error accounts i = Some a ->
  nth_error months i = Some (Pandas.CStr m) ->
  nth_error plans i = Some p ->
  nth_error actuals i = Some q ->
  In m month_order ->
  exists plan' actual' r c plan_row actual_row,
    tables_shown (trace (data_preview df)) = [plan'; actual'] /\
    Pandas.cell_position a (Pandas.index plan') = Some r /\
    Pandas.cell_position a (Pandas.index actual') = Some r /\
    Pandas.cell_position (Pandas.CStr m) (Pandas.tcolumns plan') = Some c /\
    Pandas.cell_position (Pandas.CStr m) (Pandas.tcolumns actual') = Some c /\
    nth_error (Pandas.body plan') r = Some plan_row /\
    nth_error plan_row c = Some p /\
    nth_error (Pandas.body actual') r = Some actual_row /\
    nth_error actual_row c = Some q.
Proof.
  intros Ha Hm Hpl Hac Hd Hia Him Hip Hiq Hcal.
  destruct (pivot_succeeds df "Plan" _ _ _ Ha Hm Hpl Hd) as [plan Hp].
  destruct (pivot_succeeds df "Actuals" _ _ _ Ha Hm Hac Hd) as [actual Hq].
  destruct (preview_both_ok df plan actual Hp Hq)
    as (p' & a' & acc & Hsp & Hsa & Hcp & Hca & Hxp & Hxa & _ & Hb).
  assert (In a accounts) as Hin by now apply nth_error_In with i.
  assert (In (Pandas.CStr m) (calendar_columns df)) as Hcol.
  { unfold calendar_columns, periods_present. rewrite Hm.
    apply in_map, filter_In. split; [exact Hcal|].
    apply mem_In. now apply nth_error_In with i. }
  rewrite (account_period_eq df _ _ Ha Hm) in Hd.
  pose proof (nth_error_combine _ _ _ _ _ Hia Him) as Hkey.
  destruct (selected_cell df "Plan" plan p' _ accounts months plans a
              (Pandas.CStr m) Hp Hsp Ha Hm Hpl Hin Hcol)
    as (r & c & prow & Hr & Hc & Hrow & Hcell).
  destruct (selected_cell df "Actuals" actual a' _ accounts months actuals a
              (Pandas.CStr m) Hq Hsa Ha Hm Hac Hin Hcol)
    as (r' & c' & arow & Hr' & Hc' & Hrow' & Hcell').
  rewrite (lookup_key_nth _ plans Hd i _ p Hkey Hip) in Hcell.
  rewrite (lookup_key_nth _ actuals Hd i _ q Hkey Hiq) in Hcell'.
  assert (Pandas.index a' = Pandas.index p') as Eidx.
  { rewrite Hxp, Hxa.
    apply pivot_ok_inv in Hp as (? & ? & ? & E1 & _ & _ & _ & -> & _).
    apply pivot_ok_inv in Hq as (? & ? & ? & E2 & _ & _ & _ & -> & _).
    congruence. }
  rewrite Eidx, Hr in Hr'. injection Hr' as <-.
  rewrite Hca, <- Hcp, Hc in Hc'. injection Hc' as <-.
  exists p', a', r, c, prow, arow.
  split; [now apply (preview_tables_shown df p' a' _ Hb)|].
  rewrite Eidx, Hca, <- Hcp. auto 10.
Qed.

Lemma shown_cell_is_row_value_witness :
  Pandas.has_duplicates (account_period Samples.ledger) = false /\
  nth_error (Pandas.rows Samples.ledger) 1
    = Some [Pandas.CStr "Revenue"; Pandas.CStr "Jan";
            Pandas.CNum 100; Pandas.CNum 102] /\
  In "Jan" month_order /\
  exists plan' actual' r c plan_row actual_row,
    tables_shown (trace (data_preview Samples.ledger)) = [plan'; actual'] /\
    Pandas.cell_position (Pandas.CStr "Revenue") (Pandas.index plan')
      = Some r /\
    Pandas.cell_position (Pandas.CStr "Jan") (Pandas.tcolumns plan')
      = Some c /\
    nth_error (Pandas.body plan') r = Some plan_row /\
    nth_error plan_row c = Some (Pandas.CNum 100) /\
    nth_error (Pandas.body actual') r = Some actual_row /\
    nth_error actual_row c = Some (Pandas.CNum 102).
Proof.
  split; [reflexivity|]. split; [reflexivity|].
  split; [simpl; tauto|].
  destruct (shown_cell_is_row_value Samples.ledger _ _ _ _ 1
              (Pandas.CStr "Revenue") "Jan" (Pandas.CNum 100)
              (Pandas.CNum 102)
              eq_refl eq_refl eq_refl eq_refl eq_refl
              eq_refl eq_refl eq_refl eq_refl)
    as (p & a & r & c & pr & ar & H1 & H2 & _ & H3 & _ & H4 & H5 & H6 & H7);
    [simpl; tauto|].
  exists p, a, r, c, pr, ar. auto 10.
Defined.

(** X13: a gap stays a gap.  When an account and a calendar month both
    occur in the data but no row has the two together, the cell for them
    holds the missing value in both tables; it is not filled with zero. *)
Theorem missing_pair_shows_missing_value (df : Pandas.DataFrame)
    (accounts months plans actuals : list Pandas.cell)
    (a : Pandas.cell) (m : string) :
  Pandas.getitem df "Account" = Ok accounts ->
  Pandas.getitem df "Month" = Ok months ->
  Pandas.getitem df "Plan" = Ok plans ->
  Pandas.getitem df "Actuals" = Ok actuals ->
  Pandas.has_duplicates (account_period df) = false ->
  In a accounts ->
  In (Pandas.CStr m) months ->
  In m month_order ->
  ~ In (a, Pandas.CStr m) (account_period df) ->
  exists plan' actual' r c plan_row actual_row,
    tables_shown (trace (data_preview df)) = [plan'; actual'] /\
    Pandas.cell_position a (Pandas.index plan') = Some r /\
    Pandas.cell_position (Pandas.CStr m) (Pandas.tcolumns plan') = Some c /\
    nth_error (Pandas.body plan') r = Some plan_row /\
    nth_error plan_row c = Some Pandas.CNaN /\
    nth_error (Pandas.body actual') r = Some actual_row /\
    nth_error actual_row c = Some Pandas.CNaN.
Proof.
  intros Ha Hm Hpl Hac Hd Hin Hmon Hcal Hgap.
  destruct (pivot_succeeds df "Plan" _ _ _ Ha Hm Hpl Hd) as [plan Hp].
  destruct (pivot_succeeds df "Actuals" _ _ _ Ha Hm Hac Hd) as [actual Hq].
  destruct (preview_both_ok df plan actual Hp Hq)
    as (p' & a' & acc & Hsp & Hsa & Hcp & Hca & Hxp & Hxa & _ & Hb).
  assert (In (Pandas.CStr m) (calendar_columns df)) as Hcol.
  { unfold calendar_columns, periods_present. rewrite Hm.
    apply in_map, filter_In. split; [exact Hcal | now apply mem_In]. }
  rewrite (account_period_eq df _ _ Ha Hm) in Hgap.
  destruct (selected_cell df "Plan" plan p' _ accounts months plans a
              (Pandas.CStr m) Hp Hsp Ha Hm Hpl Hin Hcol)
    as (r & c & prow & Hr & Hc & Hrow & Hcell).
  destruct (selected_cell df "Actuals" actual a' _ accounts months actuals a
              (Pandas.CStr m) Hq Hsa Ha Hm Hac Hin Hcol)
    as (r' & c' & arow & Hr' & Hc' & Hrow' & Hcell').
  rewrite (lookup_key_absent _ _ plans Hgap) in Hcell.
  rewrite (lookup_key_absent _ _ actuals Hgap) in Hcell'.
  assert (Pandas.index a' = Pandas.index p') as Eidx.
  { rewrite Hxp, Hxa.
    apply pivot_ok_inv in Hp as (? & ? & ? & E1 & _ & _ & _ & -> & _).
    apply pivot_ok_inv in Hq as (? & ? & ? & E2 & _ & _ & _ & -> & _).
    congruence. }
  rewrite Eidx, Hr in Hr'. injection Hr' as <-.
  rewrite Hca, <- Hcp, Hc in Hc'. injection Hc' as <-.
  exists p', a', r, c, prow, arow.
  split; [now apply (preview_tables_shown df p' a' _ Hb)|]. auto 10.
Qed.

Lemma missing_pair_shows_missing_value_witness :
  In (Pandas.CStr "COGS")
     [Pandas.CStr "Revenue"; Pandas.CStr "Revenue"; Pandas.CStr "COGS"] /\
  ~ In (Pandas.CStr "COGS", Pandas.CStr "Feb")
       (account_period Samples.ledger) /\
  exists plan' actual' r c plan_row actual_row,
    tables_shown (trace (data_preview Samples.ledger)) = [plan'; actual'] /\
    Pandas.cell_position (Pandas.CStr "COGS") (Pandas.index plan') = Some r /\
    Pandas.cell_position (Pandas.CStr "Feb") (Pandas.tcolumns plan')
      = Some c /\
    nth_error (Pandas.body plan') r = Some plan_row /\
    nth_error plan_row c = Some Pandas.CNaN /\
    nth_error (Pandas.body actual') r = Some actual_row /\
    nth_error actual_row c = Some Pandas.CNaN.
Proof.
  assert (~ In (Pandas.CStr "COGS", Pandas.CStr "Feb")
            (account_period Samples.ledger)) as Hgap.
  { intros H. vm_compute in H.
    repeat (destruct H as [H | H]; try discriminate). exact H. }
  split; [simpl; tauto|]. split; [exact Hgap|].
  apply (missing_pair_shows_missing_value Samples.ledger _ _ _ _
           (Pandas.CStr "COGS") "Feb"
           eq_refl eq_refl eq_refl eq_refl eq_refl);
    [simpl; tauto | simpl; tauto | simpl; tauto | exact Hgap].
Defined.

(** X14: when the pivot view fails, the rows shown instead are the first
    twenty of the frame, in order and with all its columns; a frame of at
    most twenty rows is shown whole. *)
Theorem raw_preview_is_first_twenty (df : Pandas.DataFrame) (e : exn) :
  outcome (preview_body df) = Raised e ->
  exists shown,
    (forall f, In (ShowFrame f) (trace (data_preview df)) <-> f = shown) /\
    Pandas.columns shown = Pandas.columns df /\
    Pandas.len shown = Nat.min 20 (Pandas.len df) /\
    (forall i, i < 20 ->
       nth_error (Pandas.rows shown) i = nth_error (Pandas.rows df) i) /\
    (Pandas.len df <= 20 -> shown = df).
Proof.
  intros He. exists (Pandas.head 20 df).
  rewrite (data_preview_failed df e He).
  split; [|split; [|split; [|split]]].
  - intros f. simpl. split.
    + intros H. repeat (destruct H as [H | H]; try discriminate);
        [now injection H | contradiction].
    + intros ->. auto 10.
  - reflexivity.
  - unfold Pandas.len, Pandas.head. cbn [Pandas.rows].
    apply length_firstn.
  - intros i Hi. unfold Pandas.head. cbn [Pandas.rows].
    rewrite nth_error_firstn.
    now rewrite (proj2 (Nat.ltb_lt i 20) Hi).
  - unfold Pandas.len, Pandas.head. intros Hle.
    destruct df as [cols rws]. cbn [Pandas.rows Pandas.columns] in *.
    now rewrite firstn_all2.
Qed.

Lemma raw_preview_is_first_twenty_witness :
  outcome (preview_body Cases.long_list) = Raised (KeyError "Month") /\
  Pandas.len Cases.long_list = 22 /\
  exists shown,
    (forall f, In (ShowFrame f) (trace (data_preview Cases.long_list))
               <-> f = shown) /\
    Pandas.len shown = 20.
Proof.
  split; [reflexivity|]. split; [reflexivity|].
  destruct (raw_preview_is_first_twenty Cases.long_list (KeyError "Month")
              eq_refl) as (shown & Hs & _ & Hlen & _).
  exists shown. split; [exact Hs | exact Hlen].
Defined.

(** X15: a file with the header line and no data row is a good data set.
    Both pivots succeed, the page shows two empty tables and the three
    counters read zero; the pivot view does not fail. *)
Theorem header_only_preview (df : Pandas.DataFrame) :
  Pandas.rows df = [] ->
  has_required_columns df = true ->
  data_preview df =
    ([Expander "Data Preview"; Subheader "Complete Dataset Overview";
      Write "### Plan"; ShowTable (Pandas.mkTable [] [] []);
      Write "### Actual"; ShowTable (Pandas.mkTable [] [] []);
      Write "---"; Columns 3;
      Metric "Total Rows" 0; Metric "Account Types" 0; Metric "Months" 0],
     Done tt).
Proof.
  intros Hrows Hreq.
  unfold has_required_columns, required_columns in Hreq. simpl in Hreq.
  rewrite !andb_true_iff in Hreq. destruct Hreq as (H1 & H2 & H3 & H4 & _).
  assert (forall name, has_column df name = true ->
                       Pandas.getitem df name = Ok []) as Hget.
  { intros name H. unfold has_column in H. unfold Pandas.getitem.
    destruct (Pandas.position name (Pandas.columns df)); [|discriminate].
    now rewrite Hrows. }
  unfold data_preview, preview_body, Pandas.pivot, Pandas.len.
  rewrite (Hget _ H1), (Hget _ H2), (Hget _ H3), (Hget _ H4), Hrows.
  reflexivity.
Qed.

Lemma header_only_preview_witness :
  Pandas.rows Cases.header_only = [] /\
  has_required_columns Cases.header_only = true /\
  tables_shown (trace (data_preview Cases.header_only))
    = [Pandas.mkTable [] [] []; Pandas.mkTable [] [] []].
Proof.
  split; [reflexivity|]. split; [reflexivity|].
  rewrite (header_only_preview Cases.header_only eq_refl eq_refl).
  reflexivity.
Defined.
